(** * mesos-go: the ZooKeeper detector client and the scheduler driver

    A shallow embedding of [detector/zkclient.go] and of the scheduler
    driver's lifecycle, with the properties the specification states about
    them.

    Conventions
    - A Go [error] is observed through its message: [error := string], and
      a nil error is [None].
    - A goroutine is an _activity_: running one yields a [run], the value it
      produced together with the trace of the calls it made to the outside
      (connector, callbacks), or the trace up to the point where it got
      stuck in a callback or crashed (a panic, such as a method called on
      a nil interface value).
    - The client is a shared mutable object ([*zkClient]); every operation
      takes the client as it is at the time of the call.
    - Logging is left out. *)

From Stdlib Require Import List String ZArith Bool.
From Stdlib Require Import Orders Sorting.Mergesort Sorting.Sorted Sorting.Permutation.
Import ListNotations.
Open Scope string_scope.
Open Scope list_scope.

Set Implicit Arguments.

(** ** Errors, replies and activities *)

Definition error := string.

(** What a collaborator outside this package answers: a value or an error. *)
Inductive reply (A : Type) : Type :=
| Reply (a : A)
| Failure (e : error).
Arguments Failure {A} e.

(** Calls that leave the package, in the order they are made. *)
Inductive action : Type :=
| ActDial (hosts : list string) (timeout : Z)
| ActChildrenW (watchPath : string)
| ActChildren (path : string)
| ActGet (path : string)
| ActErrorOccured (e : error)
| ActChildrenChanged (path : string).

Definition trace := list action.

(** The run of an activity. *)
Inductive run (A : Type) : Type :=
| Returned (a : A) (t : trace)
| Blocked (t : trace)
| Crashed (t : trace).
Arguments Blocked {A} t.
Arguments Crashed {A} t.

Definition ret {A} (a : A) : run A := Returned a [].

Definition bind {A B} (m : run A) (k : A -> run B) : run B :=
  match m with
  | Returned a t =>
      match k a with
      | Returned b t' => Returned b (t ++ t')
      | Blocked t' => Blocked (t ++ t')
      | Crashed t' => Crashed (t ++ t')
      end
  | Blocked t => Blocked t
  | Crashed t => Crashed t
  end.

Notation "x <- m ;; k" := (bind m (fun x => k))
  (at level 61, m at next level, right associativity).
Notation "m ;;; k" := (bind m (fun _ => k))
  (at level 61, right associativity).

Definition run_trace {A} (m : run A) : trace :=
  match m with
  | Returned _ t => t
  | Blocked t => t
  | Crashed t => t
  end.

(** A call to the outside that returns. *)
Definition emit (a : action) : run unit := Returned tt [a].

(** A call to a callback: it is made, and the activity goes on only if the
    callback returns. *)
Definition call (a : action) (returns : bool) : run unit :=
  if returns then Returned tt [a] else Blocked [a].

(** ** The go-zookeeper types the client uses *)

Module zk.

Inductive EventType : Type :=
| EventNone               (* the zero value *)
| EventNodeCreated
| EventNodeDeleted
| EventNodeDataChanged
| EventNodeChildrenChanged
| EventSession
| EventNotWatching.

Inductive State : Type :=
| StateUnknown
| StateDisconnected       (* the zero value *)
| StateConnecting
| StateSyncConnected
| StateAuthFailed
| StateConnectedReadOnly
| StateSaslAuthenticated
| StateExpired
| StateConnected
| StateHasSession.

Record Event : Type := {
  Type_ : EventType;
  State_ : State;
  Path : string;
  Err_ : option error
}.

End zk.

(** ** detector/zkclient.go *)

(** [sort.Strings]: ascending, by the byte-wise order of Go strings.  The
    order is total and antisymmetric, so the sorted slice is determined by
    its contents whatever the algorithm. *)
Module StringOrder <: TotalLeBool.
Definition t := string.
Definition leb := String.leb.
Definition leb_total : forall a b, leb a b = true \/ leb b a = true :=
  String.leb_total.
End StringOrder.

Module StringSort := Sort StringOrder.

Definition sort_Strings (l : list string) : list string := StringSort.sort l.

(** The connection the client talks through (interface [zkConnector]).  The
    watch channel [ChildrenW] hands out is the armed watch itself, see
    [watch] below. *)
Record zkConnector : Type := {
  Children : string -> reply (list string);
  ChildrenW : string -> reply (list string);
  Get : string -> reply (list Byte.byte)
}.

(** Watchers are callbacks of the client's user: what is known of one is
    whether a given invocation returns. *)
Record zkChildrenWatcher : Type := {
  childrenChanged_returns : string -> bool
}.

Record zkErrorWatcher : Type := {
  errorOccured_returns : error -> bool
}.

Record zkClient : Type := {
  conn : option zkConnector;
  hosts : list string;
  connTimeout : Z;                       (* time.Duration, nanoseconds *)
  connected : bool;
  stopCh : option nat;                   (* never allocated: nil *)
  rootPath : string;
  childrenWatcher : option zkChildrenWatcher;
  errorWatcher : option zkErrorWatcher
}.

Definition Second : Z := 1000000000.

Definition newZkClient (hs : list string) (path : string) : zkClient * option error :=
  ({| conn := None;
      hosts := hs;
      connTimeout := Second * 5;
      connected := false;
      stopCh := None;
      rootPath := path;
      childrenWatcher := None;
      errorWatcher := None |},
   None).

Definition set_conn (zkc : zkClient) (c : zkConnector) : zkClient :=
  {| conn := Some c;
     hosts := hosts zkc;
     connTimeout := connTimeout zkc;
     connected := connected zkc;
     stopCh := stopCh zkc;
     rootPath := rootPath zkc;
     childrenWatcher := childrenWatcher zkc;
     errorWatcher := errorWatcher zkc |}.

Definition set_connected (zkc : zkClient) (b : bool) : zkClient :=
  {| conn := conn zkc;
     hosts := hosts zkc;
     connTimeout := connTimeout zkc;
     connected := b;
     stopCh := stopCh zkc;
     rootPath := rootPath zkc;
     childrenWatcher := childrenWatcher zkc;
     errorWatcher := errorWatcher zkc |}.

(** [zkc.errorWatcher.errorOccured(zkc, err)] behind its nil check. *)
Definition notify_error (zkc : zkClient) (err : error) : run unit :=
  match errorWatcher zkc with
  | Some w => call (ActErrorOccured err) (errorOccured_returns w err)
  | None => ret tt
  end.

(** [zkc.childrenWatcher.childrenChanged(zkc, path)] behind its nil check. *)
Definition notify_children (zkc : zkClient) (path : string) : run unit :=
  match childrenWatcher zkc with
  | Some w => call (ActChildrenChanged path) (childrenChanged_returns w path)
  | None => ret tt
  end.

(** [if e.Err != nil { ... errorOccured(zkc, e.Err) }], the head of both
    event handlers. *)
Definition report_event_error (zkc : zkClient) (e : zk.Event) : run unit :=
  match zk.Err_ e with
  | Some err => notify_error zkc err
  | None => ret tt
  end.

Definition disconnect (zkc : zkClient) : option error * zkClient :=
  (None, zkc).

(** The session activity [connect] spawns: the client it works on and
    whether [waitConnCh] has been closed. *)
Record session : Type := {
  s_client : zkClient;
  s_waitClosed : bool
}.

(** One turn of the session activity's loop, on the event [e]. *)
Definition session_event (s : session) (e : zk.Event) : run session :=
  let zkc := s_client s in
  report_event_error zkc e ;;;
  match zk.State_ e with
  | zk.StateConnecting => ret s
  | zk.StateConnected =>
      let zkc' := set_connected zkc true in
      if s_waitClosed s
      then Crashed []                       (* close of closed channel *)
      else ret {| s_client := zkc'; s_waitClosed := true |}
  | zk.StateSyncConnected =>
      ret {| s_client := set_connected zkc true; s_waitClosed := s_waitClosed s |}
  | zk.StateDisconnected =>
      let '(_, zkc') := disconnect zkc in
      ret {| s_client := zkc'; s_waitClosed := s_waitClosed s |}
  | zk.StateExpired => ret s
  | _ => ret s
  end.

(** The session activity on the events [es], in order. *)
Fixpoint session_events (s : session) (es : list zk.Event) : run session :=
  match es with
  | [] => ret s
  | e :: es' => s' <- session_event s e ;; session_events s' es'
  end.

(** How the wait of [connect] for the confirmation ends: [waitConnCh] is
    closed, or the timer fires, with the session activity waiting for its
    next event or stuck in a callback; or the session activity has
    panicked. *)
Inductive wait_end : Type :=
| WaitClosed
| WaitTimer
| WaitStuck
| WaitCrashed.

(** The session activity while [connect] waits: [es] are the events that
    arrive before the connection timer fires.  The wait is over as soon as
    [waitConnCh] is closed. *)
Fixpoint await_connected (s : session) (es : list zk.Event) : session * trace * wait_end :=
  match es with
  | [] => (s, [], WaitTimer)
  | e :: es' =>
      match session_event s e with
      | Returned s' t =>
          if s_waitClosed s' then (s', t, WaitClosed)
          else
            let '(s'', t', w) := await_connected s' es' in
            (s'', t ++ t', w)
      | Blocked t => (s, t, WaitStuck)
      | Crashed t => (s, t, WaitCrashed)
      end
  end.

(** [zk.Connect]: the connection and the session events that reach the
    client before its timer fires, or an error. *)
Definition dialer := list string -> Z -> reply (zkConnector * list zk.Event).

(** [connect] yields its error, the client afterwards and, when it has
    spawned one that can still take events, the session activity. *)
Definition connect (dial : dialer) (zkc : zkClient)
  : run (option error * zkClient * option session) :=
  if connected zkc then
    ret (None, zkc, None)
  else
    emit (ActDial (hosts zkc) (connTimeout zkc)) ;;;
    match dial (hosts zkc) (connTimeout zkc) with
    | Failure err => ret (Some err, zkc, None)
    | Reply (c, es) =>
        let zkc1 := set_conn zkc c in
        let '(s, t, w) := await_connected {| s_client := zkc1; s_waitClosed := false |} es in
        match w with
        | WaitClosed =>
            if negb (connected (s_client s))
            then Returned (Some "Unabe to confirm connected state.", s_client s, Some s) t
            else Returned (None, s_client s, Some s) t
        | WaitTimer =>
            Returned (Some "Unable to confirm connection after 5s.", s_client s, Some s) t
        | WaitStuck =>
            Returned (Some "Unable to confirm connection after 5s.", s_client s, None) t
        | WaitCrashed => Crashed t
        end
    end.

(** An armed watch: the activity [watchChildren] spawns, waiting on the
    channel [ChildrenW] returned. *)
Record watch : Type := {
  w_path : string;                       (* the argument of watchChildren *)
  w_watchPath : string                   (* the path given to ChildrenW *)
}.

Definition watchPath_of (zkc : zkClient) (path : string) : string :=
  if negb (String.eqb path "") && negb (String.eqb path ".")
  then (rootPath zkc ++ path)%string
  else rootPath zkc.

Definition watchChildren (zkc : zkClient) (path : string) : run (reply watch) :=
  if negb (connected zkc) then
    ret (Failure "Not connected to server.")
  else
    let watchPath := watchPath_of zkc path in
    match conn zkc with
    | None => Crashed []              (* method call on a nil interface *)
    | Some c =>
        emit (ActChildrenW watchPath) ;;;
        match ChildrenW c watchPath with
        | Failure err => ret (Failure err)
        | Reply _ => ret (Reply {| w_path := path; w_watchPath := watchPath |})
        end
    end.

(** The watch activity, once the event [e] arrives on its channel.  It
    yields the watch it armed in turn, if it did. *)
Definition watch_fire (zkc : zkClient) (w : watch) (e : zk.Event) : run (option watch) :=
  report_event_error zkc e ;;;
  match zk.Type_ e with
  | zk.EventNodeChildrenChanged => notify_children zkc (zk.Path e)
  | _ => ret tt
  end ;;;
  r <- watchChildren zkc (w_path w) ;;
  match r with
  | Reply w' => ret (Some w')
  | Failure err => notify_error zkc err ;;; ret None
  end.

Definition list_ (zkc : zkClient) (path : string) : run (reply (list string)) :=
  if negb (connected zkc) then
    ret (Failure "Unable to list children, client not connected.")
  else
    match conn zkc with
    | None => Crashed []              (* method call on a nil interface *)
    | Some c =>
        emit (ActChildren path) ;;;
        match Children c path with
        | Failure err => ret (Failure err)
        | Reply children => ret (Reply (sort_Strings children))
        end
    end.

Definition data (zkc : zkClient) (path : string) : run (reply (list Byte.byte)) :=
  if negb (connected zkc) then
    ret (Failure "Unable to retrieve node data, client not connected.")
  else
    match conn zkc with
    | None => Crashed []              (* method call on a nil interface *)
    | Some c =>
        emit (ActGet path) ;;;
        match Get c path with
        | Failure err => ret (Failure err)
        | Reply d => ret (Reply d)
        end
    end.

(** The watch as a standing subscription: the activity armed by the one
    before it takes the next event.  The chain ends when an activity fails
    to arm its successor. *)
Fixpoint watch_fires (zkc : zkClient) (w : watch) (es : list zk.Event) : run (option watch) :=
  match es with
  | [] => ret (Some w)
  | e :: es' =>
      r <- watch_fire zkc w e ;;
      match r with
      | Some w' => watch_fires zkc w' es'
      | None => ret None
      end
  end.

(** Both callbacks of the client, where registered, return on every call. *)
Definition error_watcher_returns (zkc : zkClient) : Prop :=
  forall ew err, errorWatcher zkc = Some ew -> errorOccured_returns ew err = true.

Definition children_watcher_returns (zkc : zkClient) : Prop :=
  forall cw p, childrenWatcher zkc = Some cw -> childrenChanged_returns cw p = true.

(** A session event that reports the loss of the session. *)
Definition session_lost (e : zk.Event) : Prop :=
  zk.State_ e = zk.StateDisconnected \/ zk.State_ e = zk.StateExpired.

(** *** The fixtures of the client's tests *)

Definition test_zk_hosts : list string := ["localhost:2181"].
Definition test_zk_path : string := "/test".

(** [makeMockConnector]: [ChildrenW] and [Get] are mocked at [path],
    [Children] at every path.  The payload is the serialized master info,
    whose bytes play no part here. *)
Definition makeMockConnector (path : string) (payload : list Byte.byte) : zkConnector :=
  {| Children := fun _ => Reply ["x"; "a"; "d"];
     ChildrenW := fun p =>
       if String.eqb p path then Reply [path]
       else Failure "mock: unexpected call";
     Get := fun p =>
       if String.eqb p path then Reply payload
       else Failure "mock: unexpected call" |}.

Definition connectedEvent : zk.Event :=
  {| zk.Type_ := zk.EventNone; zk.State_ := zk.StateConnected;
     zk.Path := test_zk_path; zk.Err_ := None |}.

Definition childrenChangedEvent : zk.Event :=
  {| zk.Type_ := zk.EventNodeChildrenChanged; zk.State_ := zk.StateDisconnected;
     zk.Path := test_zk_path; zk.Err_ := None |}.

Definition mockDial : dialer :=
  fun _ _ => Reply (makeMockConnector test_zk_path [], [connectedEvent]).

Definition makeZkClient : zkClient := fst (newZkClient test_zk_hosts test_zk_path).

Definition with_childrenWatcher (zkc : zkClient) (w : zkChildrenWatcher) : zkClient :=
  {| conn := conn zkc;
     hosts := hosts zkc;
     connTimeout := connTimeout zkc;
     connected := connected zkc;
     stopCh := stopCh zkc;
     rootPath := rootPath zkc;
     childrenWatcher := Some w;
     errorWatcher := errorWatcher zkc |}.

(** The test client once connected through the mock. *)
Definition connectedClient : zkClient :=
  set_connected (set_conn makeZkClient (makeMockConnector test_zk_path [])) true.

(** A children watcher that never returns, and one that always does. *)
Definition blockingWatcher : zkChildrenWatcher :=
  {| childrenChanged_returns := fun _ => false |}.

Definition promptWatcher : zkChildrenWatcher :=
  {| childrenChanged_returns := fun _ => true |}.

Definition testWatch : watch :=
  {| w_path := "."; w_watchPath := test_zk_path |}.

(** The connected test client with a children watcher that returns. *)
Definition watchedClient : zkClient :=
  with_childrenWatcher connectedClient promptWatcher.

(** The connected test client with a children watcher that never returns. *)
Definition stuckClient : zkClient :=
  with_childrenWatcher connectedClient blockingWatcher.

(** Session events reporting the loss of the session. *)
Definition disconnectedEvent : zk.Event :=
  {| zk.Type_ := zk.EventSession; zk.State_ := zk.StateDisconnected;
     zk.Path := ""; zk.Err_ := None |}.

Definition expiredEvent : zk.Event :=
  {| zk.Type_ := zk.EventSession; zk.State_ := zk.StateExpired;
     zk.Path := ""; zk.Err_ := None |}.

(** ** The scheduler driver

    Package [scheduler] is represented by its tests; the driver's operations
    are modelled from the specification (section 4.2), and the tests are
    translated below, so that the model can be run against them. *)

Module scheduler.

(** [mesos.Status] *)
Inductive Status : Type :=
| DRIVER_NOT_STARTED
| DRIVER_RUNNING
| DRIVER_ABORTED
| DRIVER_STOPPED.

Definition Status_eqb (a b : Status) : bool :=
  match a, b with
  | DRIVER_NOT_STARTED, DRIVER_NOT_STARTED
  | DRIVER_RUNNING, DRIVER_RUNNING
  | DRIVER_ABORTED, DRIVER_ABORTED
  | DRIVER_STOPPED, DRIVER_STOPPED => true
  | _, _ => false
  end.

Record UPID : Type := {
  ID : string;
  Host : string;
  Port : string
}.

Record FrameworkInfo : Type := {
  User : string;
  Name : string;
  Id : option string;
  Hostname : string
}.

Record TaskInfo : Type := {
  TaskName : string;
  TaskId : string;
  SlaveId : string
}.

Definition OfferID := string.
Definition TaskID := string.
Definition Filters := option Z.

(** The messages the driver sends to the leader. *)
Inductive Message : Type :=
| RegisterFrameworkMessage (framework : FrameworkInfo)
| UnregisterFrameworkMessage (framework : FrameworkInfo)
| LaunchTasksMessage (framework : FrameworkInfo) (offer : OfferID)
                     (tasks : list TaskInfo) (filters : Filters)
| KillTaskMessage (framework : FrameworkInfo) (task : TaskID).

(** The transport, as the driver sees it (and as the tests mock it): what
    each of its methods answers. *)
Record Messenger : Type := {
  m_Start : option error;
  m_Send : UPID -> Message -> option error;
  m_Stop : option error;
  m_UPID : UPID
}.

(** The calls the driver makes on its messenger. *)
Inductive mcall : Type :=
| MStart
| MSend (to : UPID) (msg : Message)
| MStop.

Record MesosSchedulerDriver : Type := {
  FrameworkInfo_ : FrameworkInfo;
  MasterUPID : UPID;
  messenger : Messenger;
  self : option UPID;
  status : Status;
  stopped : bool;
  connected : bool;
  stopCh_closed : bool                 (* the stop signal has fired *)
}.

Definition with_messenger (d : MesosSchedulerDriver) (m : Messenger) :=
  {| FrameworkInfo_ := FrameworkInfo_ d; MasterUPID := MasterUPID d;
     messenger := m; self := self d; status := status d;
     stopped := stopped d; connected := connected d;
     stopCh_closed := stopCh_closed d |}.

Definition with_connected (d : MesosSchedulerDriver) (b : bool) :=
  {| FrameworkInfo_ := FrameworkInfo_ d; MasterUPID := MasterUPID d;
     messenger := messenger d; self := self d; status := status d;
     stopped := stopped d; connected := b;
     stopCh_closed := stopCh_closed d |}.

Definition with_status (d : MesosSchedulerDriver) (s : Status) :=
  {| FrameworkInfo_ := FrameworkInfo_ d; MasterUPID := MasterUPID d;
     messenger := messenger d; self := self d; status := s;
     stopped := stopped d; connected := connected d;
     stopCh_closed := stopCh_closed d |}.

(** What a control operation yields: the status it returns, the driver
    afterwards, and the calls it made on the messenger. *)
Definition result : Type := Status * MesosSchedulerDriver * list mcall.

Definition returned (r : result) : Status := fst (fst r).
Definition driver_after (r : result) : MesosSchedulerDriver := snd (fst r).
Definition calls (r : result) : list mcall := snd r.

(** Modelled from the spec: the constructor [NewMesosSchedulerDriver] is
    missing from the sources.  The master address comes parsed; empty
    user and host name are filled with the process owner and the local
    host name; the initial status is [NOT_STARTED] and [stopped] is
    [true]. *)
Definition NewMesosSchedulerDriver (currentUser hostname : string)
    (framework : FrameworkInfo) (master : UPID) (m : Messenger)
  : MesosSchedulerDriver :=
  {| FrameworkInfo_ :=
       {| User := if String.eqb (User framework) "" then currentUser
                  else User framework;
          Name := Name framework;
          Id := Id framework;
          Hostname := if String.eqb (Hostname framework) "" then hostname
                      else Hostname framework |};
     MasterUPID := master;
     messenger := m;
     self := None;
     status := DRIVER_NOT_STARTED;
     stopped := true;
     connected := false;
     stopCh_closed := false |}.

(** Modelled from the spec: [Start] is missing from the sources.  A driver
    that is not [NOT_STARTED] returns its status unchanged.  Otherwise the
    messenger is started; if that fails the status is (rolled back to)
    [NOT_STARTED] and returned.  Then the registration is sent to the
    leader.  The specification has [Start] report [RUNNING] when that send
    fails; the repository's test
    [TestSchedulerDriverStartWithRegistrationFailure] asserts
    [NOT_STARTED], with [stopped] still [true], and the model follows the
    test ([Start_spec] below follows the specification).  When the send
    succeeds the driver is [RUNNING] and [stopped] is [false]. *)
Definition Start (d : MesosSchedulerDriver) : result :=
  match status d with
  | DRIVER_NOT_STARTED =>
      match m_Start (messenger d) with
      | Some _ => (DRIVER_NOT_STARTED, with_status d DRIVER_NOT_STARTED, [MStart])
      | None =>
          let d1 :=
            {| FrameworkInfo_ := FrameworkInfo_ d; MasterUPID := MasterUPID d;
               messenger := messenger d; self := Some (m_UPID (messenger d));
               status := status d; stopped := stopped d;
               connected := connected d; stopCh_closed := stopCh_closed d |} in
          let msg := RegisterFrameworkMessage (FrameworkInfo_ d) in
          match m_Send (messenger d) (MasterUPID d) msg with
          | Some _ =>
              (DRIVER_NOT_STARTED, with_status d1 DRIVER_NOT_STARTED,
               [MStart; MSend (MasterUPID d) msg])
          | None =>
              (DRIVER_RUNNING,
               {| FrameworkInfo_ := FrameworkInfo_ d1; MasterUPID := MasterUPID d1;
                  messenger := messenger d1; self := self d1;
                  status := DRIVER_RUNNING; stopped := false;
                  connected := connected d1; stopCh_closed := stopCh_closed d1 |},
               [MStart; MSend (MasterUPID d) msg])
          end
      end
  | s => (s, d, [])
  end.

(** Modelled from the spec: [Start] as the specification words it, with a
    failed registration send left non-fatal: the driver is [RUNNING] all
    the same. *)
Definition Start_spec (d : MesosSchedulerDriver) : result :=
  match status d with
  | DRIVER_NOT_STARTED =>
      match m_Start (messenger d) with
      | Some _ => (DRIVER_NOT_STARTED, with_status d DRIVER_NOT_STARTED, [MStart])
      | None =>
          let msg := RegisterFrameworkMessage (FrameworkInfo_ d) in
          (DRIVER_RUNNING,
           {| FrameworkInfo_ := FrameworkInfo_ d; MasterUPID := MasterUPID d;
              messenger := messenger d; self := Some (m_UPID (messenger d));
              status := DRIVER_RUNNING; stopped := false;
              connected := connected d; stopCh_closed := stopCh_closed d |},
           [MStart; MSend (MasterUPID d) msg])
      end
  | s => (s, d, [])
  end.

(** Modelled from the spec: [Stop] is missing from the sources.  A driver
    that is not running returns its status unchanged.  Otherwise the stop
    signal is closed, the framework is unregistered unless [failover], the
    messenger is stopped, [stopped] is set and the status is [STOPPED]. *)
Definition Stop (d : MesosSchedulerDriver) (failover : bool) : result :=
  match status d with
  | DRIVER_RUNNING =>
      (DRIVER_STOPPED,
       {| FrameworkInfo_ := FrameworkInfo_ d; MasterUPID := MasterUPID d;
          messenger := messenger d; self := self d;
          status := DRIVER_STOPPED; stopped := true;
          connected := connected d; stopCh_closed := true |},
       (if failover then []
        else [MSend (MasterUPID d) (UnregisterFrameworkMessage (FrameworkInfo_ d))])
       ++ [MStop])
  | s => (s, d, [])
  end.

(** Modelled from the spec: [Abort] is missing from the sources.  It does
    something only while [RUNNING]: [connected] is cleared, the messenger
    stopped, [stopped] set and the status is [ABORTED]; the caller of
    [Join] or [Run] is signalled, so the stop signal is closed. *)
Definition Abort (d : MesosSchedulerDriver) : result :=
  match status d with
  | DRIVER_RUNNING =>
      (DRIVER_ABORTED,
       {| FrameworkInfo_ := FrameworkInfo_ d; MasterUPID := MasterUPID d;
          messenger := messenger d; self := self d;
          status := DRIVER_ABORTED; stopped := true;
          connected := false; stopCh_closed := true |},
       [MStop])
  | s => (s, d, [])
  end.

(** What a caller of [Join] sees: the status it gets back, or that it is
    suspended on the stop signal. *)
Inductive joined : Type :=
| JoinReturns (s : Status)
| JoinBlocks.

(** Modelled from the spec: the wait of [Join], [<-stopCh] and then the
    final status.  The driver is shared: a suspended caller is resumed by
    taking this step again on the driver as it has become. *)
Definition Join_wait (d : MesosSchedulerDriver) : joined :=
  if stopCh_closed d then JoinReturns (status d) else JoinBlocks.

(** Modelled from the spec: [Join] is missing from the sources.  Before
    [Start] it returns [NOT_STARTED] at once; otherwise it waits for the
    stop signal and returns the final status.  It changes nothing. *)
Definition Join (d : MesosSchedulerDriver) : joined :=
  match status d with
  | DRIVER_NOT_STARTED => JoinReturns DRIVER_NOT_STARTED
  | _ => Join_wait d
  end.

(** Modelled from the spec: [Run] is missing from the sources: [Start],
    then [Join], whose result it returns. *)
Definition Run (d : MesosSchedulerDriver) : joined * MesosSchedulerDriver * list mcall :=
  let r := Start d in
  (Join (driver_after r), driver_after r, calls r).

(** Modelled from the spec: [LaunchTasks] is missing from the sources.  A
    driver that is not running returns its status; otherwise the launch
    message is sent, and the status returned is [RUNNING] whether the send
    failed or not. *)
Definition LaunchTasks (d : MesosSchedulerDriver) (offerId : OfferID)
    (tasks : list TaskInfo) (filters : Filters) : result :=
  match status d with
  | DRIVER_RUNNING =>
      let msg := LaunchTasksMessage (FrameworkInfo_ d) offerId tasks filters in
      match m_Send (messenger d) (MasterUPID d) msg with
      | Some _ => (status d, d, [MSend (MasterUPID d) msg])
      | None => (status d, d, [MSend (MasterUPID d) msg])
      end
  | s => (s, d, [])
  end.

(** Modelled from the spec: [KillTask] is missing from the sources; it is
    [LaunchTasks] with a kill-task message. *)
Definition KillTask (d : MesosSchedulerDriver) (taskId : TaskID) : result :=
  match status d with
  | DRIVER_RUNNING =>
      let msg := KillTaskMessage (FrameworkInfo_ d) taskId in
      match m_Send (messenger d) (MasterUPID d) msg with
      | Some _ => (status d, d, [MSend (MasterUPID d) msg])
      | None => (status d, d, [MSend (MasterUPID d) msg])
      end
  | s => (s, d, [])
  end.

(** *** The fixtures and tests of the driver *)

Definition master : UPID :=
  {| ID := "master"; Host := "127.0.0.1"; Port := "8080" |}.

Definition framework : FrameworkInfo :=
  {| User := "test-user"; Name := "test-name";
     Id := Some "some-framework-id-uuid"; Hostname := "" |}.

(** [messenger.NewMockedMessenger()] with [On("Start")], [On("Send")] and
    [On("Stop")] returning what is given. *)
Definition NewMockedMessenger (start send stop : option error) : Messenger :=
  {| m_Start := start; m_Send := fun _ _ => send; m_Stop := stop;
     m_UPID := {| ID := ""; Host := ""; Port := "" |} |}.

Definition newTestDriver (m : Messenger) : MesosSchedulerDriver :=
  NewMesosSchedulerDriver "owner" "localhost" framework master m.

Definition task : TaskInfo :=
  {| TaskName := "simple-task"; TaskId := "simpe-task-1"; SlaveId := "slave-1" |}.

(** The tests below are the repository's, assertion by assertion; a test
    is [true] when all its assertions hold. *)

Definition TestSchedulerDriverStartOK : bool :=
  let driver := newTestDriver (NewMockedMessenger None None None) in
  let r := Start driver in
  stopped driver
  && negb (stopped (driver_after r))
  && Status_eqb DRIVER_RUNNING (returned r).

Definition TestSchedulerDriverStartWithMessengerFailure : bool :=
  let driver :=
    newTestDriver (NewMockedMessenger (Some "Failed to start messenger") None None) in
  let r := Start driver in
  stopped driver
  && stopped (driver_after r)
  && Status_eqb DRIVER_NOT_STARTED (status (driver_after r))
  && Status_eqb DRIVER_NOT_STARTED (returned r).

(** This test is given the [Start] it exercises. *)
Definition TestSchedulerDriverStartWithRegistrationFailure
    (start : MesosSchedulerDriver -> result) : bool :=
  let driver :=
    newTestDriver (NewMockedMessenger None (Some "messenger failed to send") None) in
  let r := start driver in
  stopped driver
  && stopped (driver_after r)
  && Status_eqb DRIVER_NOT_STARTED (status (driver_after r))
  && Status_eqb DRIVER_NOT_STARTED (returned r).

Definition joined_eqb (j : joined) (s : Status) : bool :=
  match j with
  | JoinReturns s' => Status_eqb s s'
  | JoinBlocks => false
  end.

Definition TestSchedulerDriverJoinUnstarted : bool :=
  let driver := newTestDriver (NewMockedMessenger None None None) in
  stopped driver
  && joined_eqb (Join driver) DRIVER_NOT_STARTED.

Definition TestSchedulerDriverStopUnstarted : bool :=
  let driver := newTestDriver (NewMockedMessenger None None None) in
  let r := Stop driver true in
  stopped driver
  && stopped (driver_after r)
  && Status_eqb DRIVER_NOT_STARTED (returned r).

(** [go driver.Run()] suspends in [Join]; the test goes on with the
    driver [Run] left, and the suspended caller is resumed on the driver
    the test ends with. *)
Definition TestSchdulerDriverStopOK : bool :=
  let driver := newTestDriver (NewMockedMessenger None None None) in
  let '(j, running, _) := Run driver in
  let r := Stop running false in
  stopped driver
  && match j with JoinBlocks => true | JoinReturns _ => false end
  && negb (stopped running)
  && Status_eqb DRIVER_RUNNING (status running)
  && stopped (driver_after r)
  && Status_eqb DRIVER_STOPPED (status (driver_after r))
  && joined_eqb (Join_wait (driver_after r)) DRIVER_STOPPED.

Definition TestSchdulerDriverAbort : bool :=
  let driver := newTestDriver (NewMockedMessenger None None None) in
  let '(j, running, _) := Run driver in
  let running := with_connected running true in
  let r := Abort running in
  stopped driver
  && match j with JoinBlocks => true | JoinReturns _ => false end
  && negb (stopped running)
  && Status_eqb DRIVER_RUNNING (status running)
  && stopped (driver_after r)
  && Status_eqb DRIVER_ABORTED (returned r)
  && Status_eqb DRIVER_ABORTED (status (driver_after r))
  && joined_eqb (Join_wait (driver_after r)) DRIVER_ABORTED.

Definition TestLunchTasksUnstarted : bool :=
  let driver := newTestDriver (NewMockedMessenger None None None) in
  let r := LaunchTasks driver "" [] None in
  stopped driver
  && Status_eqb DRIVER_NOT_STARTED (returned r).

Definition TestLaunchTasksWithError : bool :=
  let driver := newTestDriver (NewMockedMessenger None None None) in
  let '(_, running, _) := Run driver in
  let running := with_connected running true in
  let failing :=
    with_messenger running (NewMockedMessenger None (Some "Unable to send message") None) in
  let r := LaunchTasks failing "" [task] None in
  stopped driver
  && negb (stopped running)
  && Status_eqb DRIVER_RUNNING (status running)
  && Status_eqb DRIVER_RUNNING (returned r).

Definition TestLaunchTasks : bool :=
  let driver := newTestDriver (NewMockedMessenger None None None) in
  let '(_, running, _) := Run driver in
  let running := with_connected running true in
  let r := LaunchTasks running "" [task] None in
  stopped driver
  && negb (stopped running)
  && Status_eqb DRIVER_RUNNING (status running)
  && Status_eqb DRIVER_RUNNING (returned r).

Definition TestKillTask : bool :=
  let driver := newTestDriver (NewMockedMessenger None None None) in
  let '(_, running, _) := Run driver in
  let running := with_connected running true in
  let r := KillTask running "test-task-1" in
  stopped driver
  && negb (stopped running)
  && Status_eqb DRIVER_RUNNING (status running)
  && Status_eqb DRIVER_RUNNING (returned r).

(** The control calls a framework can make, and a driver after a sequence
    of them. *)
Inductive control : Type :=
| CStart
| CStop (failover : bool)
| CAbort
| CLaunchTasks (offerId : OfferID) (tasks : list TaskInfo) (filters : Filters)
| CKillTask (taskId : TaskID).

Definition control_is_Start (c : control) : bool :=
  match c with CStart => true | _ => false end.

Definition perform (d : MesosSchedulerDriver) (c : control) : result :=
  match c with
  | CStart => Start d
  | CStop failover => Stop d failover
  | CAbort => Abort d
  | CLaunchTasks o ts f => LaunchTasks d o ts f
  | CKillTask t => KillTask d t
  end.

Definition perform_all (d : MesosSchedulerDriver) (cs : list control) : MesosSchedulerDriver :=
  fold_left (fun d c => driver_after (perform d c)) cs d.

End scheduler.


(** The driver of [TestSchedulerDriverStartWithMessengerFailure]. *)
Definition messengerFailureDriver : scheduler.MesosSchedulerDriver :=
  scheduler.newTestDriver
    (scheduler.NewMockedMessenger (Some "Failed to start messenger") None None).

(** The running driver of [TestLaunchTasksWithError], its messenger failing
    every send. *)
Definition sendFailureDriver : scheduler.MesosSchedulerDriver :=
  scheduler.with_messenger
    (scheduler.with_connected
       (scheduler.driver_after
          (scheduler.Start
             (scheduler.newTestDriver (scheduler.NewMockedMessenger None None None))))
       true)
    (scheduler.NewMockedMessenger None (Some "Unable to send message") None).

(** A driver on which everything but [Start] has been called. *)
Definition unstartedDriver : scheduler.MesosSchedulerDriver :=
  scheduler.perform_all
    (scheduler.newTestDriver (scheduler.NewMockedMessenger None None None))
    [scheduler.CStop true; scheduler.CAbort;
     scheduler.CLaunchTasks "" [scheduler.task] None; scheduler.CKillTask "t"].

(** The driver the tests run: started, its caller suspended in [Run]. *)
Definition runningDriver : scheduler.MesosSchedulerDriver :=
  scheduler.driver_after
    (scheduler.Start
       (scheduler.newTestDriver (scheduler.NewMockedMessenger None None None))).

(** ** Observations on traces and clients, and further fixtures *)

From Stdlib Require Import NArith Lia.

(** The event is a children-changed notification. *)
Definition is_children_changed (e : zk.Event) : bool :=
  match zk.Type_ e with
  | zk.EventNodeChildrenChanged => true
  | _ => false
  end.

(** The paths the children watcher was called with, the paths a watch was
    requested on, and the errors the error watcher was called with, each in
    the order of the trace. *)
Fixpoint callbacks_of (t : trace) : list string :=
  match t with
  | [] => []
  | ActChildrenChanged p :: t' => p :: callbacks_of t'
  | _ :: t' => callbacks_of t'
  end.

Fixpoint rearms_of (t : trace) : list string :=
  match t with
  | [] => []
  | ActChildrenW p :: t' => p :: rearms_of t'
  | _ :: t' => rearms_of t'
  end.

Fixpoint reports_of (t : trace) : list error :=
  match t with
  | [] => []
  | ActErrorOccured err :: t' => err :: reports_of t'
  | _ :: t' => reports_of t'
  end.

(** The errors a sequence of events carries. *)
Definition event_errors (es : list zk.Event) : list error :=
  flat_map (fun e => match zk.Err_ e with Some err => [err] | None => [] end) es.

(** The event reports [StateConnected]; the event is one of the two on
    which the session activity sets [connected]. *)
Definition is_connected_event (e : zk.Event) : bool :=
  match zk.State_ e with
  | zk.StateConnected => true
  | _ => false
  end.

Definition sets_connected (e : zk.Event) : bool :=
  match zk.State_ e with
  | zk.StateConnected | zk.StateSyncConnected => true
  | _ => false
  end.

(** Two clients that differ in [connected] at most. *)
Definition same_settings (zkc zkc' : zkClient) : Prop :=
  conn zkc' = conn zkc
  /\ hosts zkc' = hosts zkc
  /\ connTimeout zkc' = connTimeout zkc
  /\ stopCh zkc' = stopCh zkc
  /\ rootPath zkc' = rootPath zkc
  /\ childrenWatcher zkc' = childrenWatcher zkc
  /\ errorWatcher zkc' = errorWatcher zkc.

(** A client whose [connected] flag is backed by a connection. *)
Definition conn_ready (zkc : zkClient) : Prop :=
  connected zkc = true -> conn zkc <> None.

(** The activity did not end in a panic. *)
Definition no_panic {A : Type} (m : run A) : Prop :=
  match m with
  | Crashed _ => False
  | _ => True
  end.

Definition with_errorWatcher (zkc : zkClient) (w : zkErrorWatcher) : zkClient :=
  {| conn := conn zkc;
     hosts := hosts zkc;
     connTimeout := connTimeout zkc;
     connected := connected zkc;
     stopCh := stopCh zkc;
     rootPath := rootPath zkc;
     childrenWatcher := childrenWatcher zkc;
     errorWatcher := Some w |}.

(** An error watcher that always returns, and one that never does. *)
Definition promptErrorWatcher : zkErrorWatcher :=
  {| errorOccured_returns := fun _ => true |}.

Definition blockingErrorWatcher : zkErrorWatcher :=
  {| errorOccured_returns := fun _ => false |}.

Definition syncConnectedEvent : zk.Event :=
  {| zk.Type_ := zk.EventSession; zk.State_ := zk.StateSyncConnected;
     zk.Path := ""; zk.Err_ := None |}.

Definition connectingEvent : zk.Event :=
  {| zk.Type_ := zk.EventSession; zk.State_ := zk.StateConnecting;
     zk.Path := ""; zk.Err_ := None |}.

(** The event of [TestZkClientWatchErrors]. *)
Definition watchErrorEvent : zk.Event :=
  {| zk.Type_ := zk.EventNodeChildrenChanged; zk.State_ := zk.StateDisconnected;
     zk.Path := "/test"; zk.Err_ := Some "Event Error" |}.

(** A session event that carries an error and reports the connection. *)
Definition connectedWithErrorEvent : zk.Event :=
  {| zk.Type_ := zk.EventSession; zk.State_ := zk.StateConnected;
     zk.Path := ""; zk.Err_ := Some "Event Error" |}.

(** A node deletion seen on the watch channel. *)
Definition nodeDeletedEvent : zk.Event :=
  {| zk.Type_ := zk.EventNodeDeleted; zk.State_ := zk.StateDisconnected;
     zk.Path := "/test"; zk.Err_ := None |}.

(** [zk.Connect] answering with the given events, and failing. *)
Definition dialWith (es : list zk.Event) : dialer :=
  fun _ _ => Reply (makeMockConnector test_zk_path [], es).

Definition dialFailing (err : error) : dialer :=
  fun _ _ => Failure err.

(** A connection that refuses every watch. *)
Definition refusingConnector : zkConnector :=
  {| Children := fun _ => Reply ["x"; "a"; "d"];
     ChildrenW := fun _ => Failure "zk: node does not exist";
     Get := fun _ => Failure "zk: node does not exist" |}.

(** A connection reporting the given children at every path. *)
Definition connectorWithChildren (cs : list string) : zkConnector :=
  {| Children := fun _ => Reply cs;
     ChildrenW := fun _ => Reply cs;
     Get := fun _ => Reply [] |}.

(** The connected test client with both watchers registered, talking to a
    connection that refuses watches. *)
Definition refusedClient : zkClient :=
  with_errorWatcher
    (with_childrenWatcher
       (set_connected (set_conn makeZkClient refusingConnector) true)
       promptWatcher)
    promptErrorWatcher.

(** The connected test client with both watchers registered. *)
Definition observedClient : zkClient :=
  with_errorWatcher watchedClient promptErrorWatcher.

(** * Properties of the detector client *)

Unset Implicit Arguments.

Section ClientFacts.

Variable zkc : zkClient.

Lemma report_event_error_returns (e : zk.Event) :
  error_watcher_returns zkc ->
  report_event_error zkc e = Returned tt (run_trace (report_event_error zkc e)).
Proof.
  intros Hret. unfold report_event_error, notify_error.
  destruct (zk.Err_ e) as [err|]; [|reflexivity].
  destruct (errorWatcher zkc) as [ew|] eqn:Hew; [|reflexivity].
  rewrite (Hret ew err Hew). reflexivity.
Qed.

Lemma report_event_error_trace (e : zk.Event) (a : action) :
  In a (run_trace (report_event_error zkc e)) -> exists err, a = ActErrorOccured err.
Proof.
  unfold report_event_error, notify_error, call.
  destruct (zk.Err_ e) as [err|]; [|intros []].
  destruct (errorWatcher zkc) as [ew|]; [|intros []].
  destruct (errorOccured_returns ew err); simpl;
    intros [<-|[]]; now exists err.
Qed.

Lemma notify_children_returns (cw : zkChildrenWatcher) (p : string) :
  childrenWatcher zkc = Some cw ->
  childrenChanged_returns cw p = true ->
  notify_children zkc p = Returned tt [ActChildrenChanged p].
Proof.
  intros Hcw Hret. unfold notify_children, call. now rewrite Hcw, Hret.
Qed.

Lemma notify_children_blocks (cw : zkChildrenWatcher) (p : string) :
  childrenWatcher zkc = Some cw ->
  childrenChanged_returns cw p = false ->
  notify_children zkc p = Blocked [ActChildrenChanged p].
Proof.
  intros Hcw Hret. unfold notify_children, call. now rewrite Hcw, Hret.
Qed.

(** Past its guard, [watchChildren] asks the connector for the watch. *)
Lemma watchChildren_connected (c : zkConnector) (path : string) :
  connected zkc = true -> conn zkc = Some c ->
  watchChildren zkc path =
    Returned
      match ChildrenW c (watchPath_of zkc path) with
      | Reply _ => Reply {| w_path := path; w_watchPath := watchPath_of zkc path |}
      | Failure err => Failure err
      end
      [ActChildrenW (watchPath_of zkc path)].
Proof.
  intros Hc Hconn. unfold watchChildren. rewrite Hc, Hconn. simpl.
  now destruct (ChildrenW c (watchPath_of zkc path)).
Qed.

Lemma list_connected (c : zkConnector) (path : string) :
  connected zkc = true -> conn zkc = Some c ->
  list_ zkc path =
    Returned
      match Children c path with
      | Reply children => Reply (sort_Strings children)
      | Failure err => Failure err
      end
      [ActChildren path].
Proof.
  intros Hc Hconn. unfold list_. rewrite Hc, Hconn. simpl.
  now destruct (Children c path).
Qed.

Lemma data_connected (c : zkConnector) (path : string) :
  connected zkc = true -> conn zkc = Some c ->
  data zkc path =
    Returned
      match Get c path with
      | Reply d => Reply d
      | Failure err => Failure err
      end
      [ActGet path].
Proof.
  intros Hc Hconn. unfold data. rewrite Hc, Hconn. simpl.
  now destruct (Get c path).
Qed.

End ClientFacts.

(** No session event clears [connected], and none replaces the connection. *)
Lemma session_event_keeps_connected (s s' : session) (e : zk.Event) (t : trace) :
  session_event s e = Returned s' t ->
  conn (s_client s') = conn (s_client s) /\
  (connected (s_client s) = true -> connected (s_client s') = true).
Proof.
  unfold session_event.
  destruct (report_event_error (s_client s) e) as [[] t0|t0|t0]; simpl; try discriminate.
  destruct (zk.State_ e); simpl; try (intros [= <- _]; now split).
  destruct (s_waitClosed s); simpl; [discriminate|].
  intros [= <- _]. now split.
Qed.

(** A [connect] that reports success leaves the client connected. *)
Lemma await_connected_closed (es : list zk.Event) (s s' : session) (t : trace) :
  await_connected s es = (s', t, WaitClosed) ->
  s_waitClosed s = false ->
  connected (s_client s') = true.
Proof.
  revert s t. induction es as [|e es IH]; intros s t; simpl; [discriminate|].
  destruct (session_event s e) as [s1 t1|t1|t1] eqn:He; try discriminate.
  destruct (s_waitClosed s1) eqn:Hw1.
  - intros [= <- _] Hw.
    revert He. unfold session_event.
    destruct (report_event_error (s_client s) e) as [[] t0|t0|t0]; simpl; try discriminate.
    destruct (zk.State_ e); simpl; rewrite ?Hw; simpl;
      intros [= <- _]; simpl in *; congruence.
  - destruct (await_connected s1 es) as [[s2 t2] w2] eqn:Ha.
    intros [= <- _ ->] _. eapply IH; eauto.
Qed.

Lemma connect_success_connected (dial : dialer) (zkc zkc' : zkClient)
    (os : option session) (t : trace) :
  connect dial zkc = Returned (None, zkc', os) t ->
  connected zkc' = true.
Proof.
  unfold connect. destruct (connected zkc) eqn:Hc.
  - intros [= <- _ _]. exact Hc.
  - simpl. destruct (dial (hosts zkc) (connTimeout zkc)) as [[c es]|err]; simpl;
      [|discriminate].
    destruct (await_connected _ es) as [[s1 t1] w1] eqn:Ha.
    destruct w1; simpl; try discriminate.
    destruct (connected (s_client s1)) eqn:Hc1; simpl; [|discriminate].
    intros [= <- _ _]. exact Hc1.
Qed.

(** C6. [connect] is idempotent: on a client that is already connected it
    returns nil, makes no connection attempt (it calls nothing outside, in
    particular not [zk.Connect], and spawns no session activity) and leaves
    the client, hence [connected = true], as it was. *)
Theorem connect_idempotent (dial : dialer) (zkc : zkClient) :
  connected zkc = true ->
  exists zkc',
    connect dial zkc = Returned (None, zkc', None) [] /\
    zkc' = zkc /\
    connected zkc' = true.
Proof.
  intros Hc. exists zkc.
  unfold connect. rewrite Hc. now repeat split.
Qed.

Lemma connect_idempotent_witness :
  exists zkc',
    connect mockDial connectedClient = Returned (None, zkc', None) [] /\
    zkc' = connectedClient /\
    connected zkc' = true.
Proof. apply (connect_idempotent mockDial connectedClient). reflexivity. Defined.

(** Calling [connect] a second time, after a first call that succeeded. *)
Lemma connect_twice (dial : dialer) (zkc zkc' : zkClient)
    (os : option session) (t : trace) :
  connect dial zkc = Returned (None, zkc', os) t ->
  connect dial zkc' = Returned (None, zkc', None) [].
Proof.
  intros H. apply connect_success_connected in H.
  unfold connect. now rewrite H.
Qed.

(** [TestZkClientConnect]: the unconnected test client connects through the
    mock, with one connection attempt. *)
Example TestZkClientConnect :
  connected makeZkClient = false /\
  exists zkc' os,
    connect mockDial makeZkClient =
      Returned (None, zkc', os) [ActDial test_zk_hosts (Second * 5)] /\
    connected zkc' = true.
Proof. split; [reflexivity|]. eexists. eexists. split; reflexivity. Qed.

(** C7. On a connected client [list] returns the children the connection
    reports, sorted in ascending order: the result is a sorted rearrangement
    of the names.  On a client without a session it fails with the
    not-connected error, and asks the connection nothing. *)
Theorem list_sorted_or_not_connected (zkc : zkClient) (path : string) :
  (connected zkc = false ->
     list_ zkc path =
       Returned (Failure "Unable to list children, client not connected.") [])
  /\
  (forall c children,
     connected zkc = true -> conn zkc = Some c ->
     Children c path = Reply children ->
     list_ zkc path = Returned (Reply (sort_Strings children)) [ActChildren path]
     /\ Permutation children (sort_Strings children)
     /\ Sorted (fun a b => String.leb a b = true) (sort_Strings children)).
Proof.
  split.
  - intros Hc. unfold list_. now rewrite Hc.
  - intros c children Hc Hconn Hch. split; [|split].
    + rewrite (list_connected zkc c path Hc Hconn), Hch. reflexivity.
    + apply StringSort.Permuted_sort.
    + exact (StringSort.Sorted_sort children).
Qed.

Lemma list_sorted_or_not_connected_witness :
  list_ makeZkClient test_zk_path =
    Returned (Failure "Unable to list children, client not connected.") []
  /\ list_ connectedClient test_zk_path =
       Returned (Reply ["a"; "d"; "x"]) [ActChildren test_zk_path].
Proof.
  split.
  - apply (proj1 (list_sorted_or_not_connected makeZkClient test_zk_path)).
    reflexivity.
  - apply (proj2 (list_sorted_or_not_connected connectedClient test_zk_path)
             (makeMockConnector test_zk_path []) ["x"; "a"; "d"]);
      reflexivity.
Defined.



Lemma watchedClient_error_watcher_returns : error_watcher_returns watchedClient.
Proof. intros ew err H. discriminate H. Qed.


(** C9, as the code has it.  The activity that receives the firing calls
    the children watcher first and asks for the next watch only once the
    callback has returned: when the callback returns, the request follows
    it directly; when it does not, the activity stays in the callback and
    no watch is requested. *)
Theorem rearm_follows_callback (zkc : zkClient) (c : zkConnector)
    (cw : zkChildrenWatcher) (w : watch) (e : zk.Event) :
  connected zkc = true -> conn zkc = Some c ->
  childrenWatcher zkc = Some cw ->
  error_watcher_returns zkc ->
  zk.Type_ e = zk.EventNodeChildrenChanged ->
  let wp := watchPath_of zkc (w_path w) in
  (childrenChanged_returns cw (zk.Path e) = true ->
     exists post,
       run_trace (watch_fire zkc w e) =
         run_trace (report_event_error zkc e)
         ++ [ActChildrenChanged (zk.Path e); ActChildrenW wp] ++ post
       /\ forall p, ~ In (ActChildrenW p) (run_trace (report_event_error zkc e)))
  /\
  (childrenChanged_returns cw (zk.Path e) = false ->
     watch_fire zkc w e =
       Blocked (run_trace (report_event_error zkc e)
                ++ [ActChildrenChanged (zk.Path e)])
     /\ forall p, ~ In (ActChildrenW p) (run_trace (watch_fire zkc w e))).
Proof.
  intros Hc Hconn Hcw Heret Hty wp.
  assert (Hpre : forall p, ~ In (ActChildrenW p) (run_trace (report_event_error zkc e))).
  { intros p Hin. apply report_event_error_trace in Hin as [err Herr]. discriminate. }
  unfold watch_fire. rewrite Hty.
  rewrite (report_event_error_returns zkc e Heret).
  split; intros Hret.
  - rewrite (notify_children_returns zkc cw (zk.Path e) Hcw Hret).
    rewrite (watchChildren_connected zkc c (w_path w) Hc Hconn). fold wp.
    destruct (ChildrenW c wp) as [cs|err]; simpl.
    + exists []. split; [reflexivity|exact Hpre].
    + unfold notify_error, call.
      destruct (errorWatcher zkc) as [ew|] eqn:Hew; simpl.
      * rewrite (Heret ew err Hew). simpl.
        exists [ActErrorOccured err]. split; [reflexivity|exact Hpre].
      * exists []. split; [reflexivity|exact Hpre].
  - rewrite (notify_children_blocks zkc cw (zk.Path e) Hcw Hret). simpl.
    split; [reflexivity|].
    intros p Hin. apply in_app_or in Hin as [Hin|[Hin|[]]].
    + exact (Hpre p Hin).
    + discriminate.
Qed.

Lemma stuckClient_error_watcher_returns : error_watcher_returns stuckClient.
Proof. intros ew err H. discriminate H. Qed.

Lemma rearm_follows_callback_witness :
  (exists post,
     run_trace (watch_fire watchedClient testWatch childrenChangedEvent) =
       [ActChildrenChanged "/test"; ActChildrenW "/test"] ++ post)
  /\ watch_fire stuckClient testWatch childrenChangedEvent =
       Blocked [ActChildrenChanged "/test"].
Proof.
  split.
  - destruct (proj1 (rearm_follows_callback watchedClient
                       (makeMockConnector test_zk_path []) promptWatcher
                       testWatch childrenChangedEvent
                       eq_refl eq_refl eq_refl
                       watchedClient_error_watcher_returns eq_refl) eq_refl)
      as [post [H _]].
    exists post. exact H.
  - apply (proj2 (rearm_follows_callback stuckClient
                    (makeMockConnector test_zk_path []) blockingWatcher
                    testWatch childrenChangedEvent
                    eq_refl eq_refl eq_refl
                    stuckClient_error_watcher_returns eq_refl)).
    reflexivity.
Defined.

(** C9 as stated fails: with a children watcher that blocks, the firing
    leaves the receiving activity in the callback, and the watch is not
    requested again. *)
Lemma blocking_callback_prevents_rearm :
  connected stuckClient = true
  /\ watchChildren stuckClient "." =
       Returned (Reply testWatch) [ActChildrenW "/test"]
  /\ watch_fire stuckClient testWatch childrenChangedEvent =
       Blocked [ActChildrenChanged "/test"]
  /\ ~ In (ActChildrenW "/test")
         (run_trace (watch_fire stuckClient testWatch childrenChangedEvent)).
Proof.
  repeat split.
  simpl. intros [H|[]]. discriminate H.
Qed.

(** Session events that report the loss of the session leave the session
    activity's state as it was. *)
Lemma session_lost_events_noop (s : session) (es : list zk.Event) :
  error_watcher_returns (s_client s) ->
  Forall session_lost es ->
  exists t, session_events s es = Returned s t.
Proof.
  intros Heret Hes. induction Hes as [|e es He _ IH]; simpl.
  - now exists [].
  - destruct IH as [t IH].
    assert (H1 : session_event s e =
                 Returned s (run_trace (report_event_error (s_client s) e) ++ [])).
    { unfold session_event.
      rewrite (report_event_error_returns (s_client s) e Heret).
      destruct He as [-> | ->]; simpl; [|reflexivity].
      now destruct s. }
    rewrite H1. simpl. rewrite IH. now eexists.
Qed.

(** C10. [disconnect] returns nil and changes nothing in the client.  A
    client that is connected stays so through session events that report
    Disconnected or Expired: after them [connected] is still [true], and
    [list], [data] and [watchChildren] pass their not-connected guard and go
    to the connection, whose answer they return. *)
Theorem session_loss_keeps_connected :
  (forall zkc, disconnect zkc = (None, zkc))
  /\
  (forall s es c path,
     connected (s_client s) = true -> conn (s_client s) = Some c ->
     error_watcher_returns (s_client s) ->
     Forall session_lost es ->
     exists s' t,
       session_events s es = Returned s' t
       /\ s_client s' = s_client s
       /\ connected (s_client s') = true
       /\ list_ (s_client s') path =
            Returned
              match Children c path with
              | Reply children => Reply (sort_Strings children)
              | Failure err => Failure err
              end
              [ActChildren path]
       /\ data (s_client s') path =
            Returned
              match Get c path with
              | Reply d => Reply d
              | Failure err => Failure err
              end
              [ActGet path]
       /\ run_trace (watchChildren (s_client s') path) =
            [ActChildrenW (watchPath_of (s_client s') path)]).
Proof.
  split; [reflexivity|].
  intros s es c path Hc Hconn Heret Hes.
  destruct (session_lost_events_noop s es Heret Hes) as [t Ht].
  exists s, t. repeat split; try assumption.
  - now apply list_connected.
  - now apply data_connected.
  - now rewrite (watchChildren_connected (s_client s) c path Hc Hconn).
Qed.

Lemma session_loss_keeps_connected_witness :
  exists s' t,
    session_events {| s_client := connectedClient; s_waitClosed := true |}
      [disconnectedEvent; expiredEvent] = Returned s' t
    /\ s_client s' = connectedClient
    /\ connected (s_client s') = true
    /\ list_ (s_client s') test_zk_path =
         Returned (Reply ["a"; "d"; "x"]) [ActChildren test_zk_path]
    /\ data (s_client s') test_zk_path = Returned (Reply []) [ActGet test_zk_path]
    /\ run_trace (watchChildren (s_client s') test_zk_path) =
         [ActChildrenW (watchPath_of (s_client s') test_zk_path)].
Proof.
  apply (proj2 session_loss_keeps_connected
           {| s_client := connectedClient; s_waitClosed := true |}
           [disconnectedEvent; expiredEvent]
           (makeMockConnector test_zk_path []) test_zk_path).
  - reflexivity.
  - reflexivity.
  - intros ew err H. discriminate H.
  - apply Forall_cons; [left; reflexivity|].
    apply Forall_cons; [right; reflexivity|].
    apply Forall_nil.
Defined.

(** * Properties of the scheduler driver *)

Section DriverFacts.

Import scheduler.

(** The model passes the driver's tests. *)
Lemma driver_tests_pass :
  TestSchedulerDriverStartOK = true
  /\ TestSchedulerDriverStartWithMessengerFailure = true
  /\ TestSchedulerDriverStartWithRegistrationFailure Start = true
  /\ TestSchedulerDriverJoinUnstarted = true
  /\ TestSchedulerDriverStopUnstarted = true
  /\ TestSchdulerDriverStopOK = true
  /\ TestSchdulerDriverAbort = true
  /\ TestLunchTasksUnstarted = true
  /\ TestLaunchTasksWithError = true
  /\ TestLaunchTasks = true
  /\ TestKillTask = true.
Proof. repeat split. Qed.

(** [Start] as the specification words it does not pass the registration
    failure test, and no [Start] that passes it reports [RUNNING] there. *)
Lemma Start_spec_fails_registration_test :
  TestSchedulerDriverStartWithRegistrationFailure Start_spec = false.
Proof. reflexivity. Qed.

Lemma registration_test_excludes_RUNNING (start : MesosSchedulerDriver -> result) :
  TestSchedulerDriverStartWithRegistrationFailure start = true ->
  returned
    (start (newTestDriver
              (NewMockedMessenger None (Some "messenger failed to send") None)))
  = DRIVER_NOT_STARTED.
Proof.
  unfold TestSchedulerDriverStartWithRegistrationFailure. cbv zeta.
  intros H. apply andb_prop in H as [_ H].
  now destruct (returned (start _)).
Qed.

Lemma with_status_same (d : MesosSchedulerDriver) :
  with_status d (status d) = d.
Proof. now destruct d. Qed.

(** Until [Start] is called the driver is [NOT_STARTED], whatever else is
    called on it. *)
Lemma perform_not_started (d : MesosSchedulerDriver) (c : control) :
  status d = DRIVER_NOT_STARTED -> control_is_Start c = false ->
  driver_after (perform d c) = d.
Proof.
  intros Hs Hc. destruct c; try discriminate; simpl;
    unfold Stop, Abort, LaunchTasks, KillTask; now rewrite Hs.
Qed.

Lemma never_started (d : MesosSchedulerDriver) (cs : list control) :
  status d = DRIVER_NOT_STARTED ->
  forallb (fun c => negb (control_is_Start c)) cs = true ->
  perform_all d cs = d.
Proof.
  intros Hs. unfold perform_all. induction cs as [|c cs IH]; simpl; [reflexivity|].
  intros H. apply andb_prop in H as [Hc Hcs].
  apply negb_true_iff in Hc.
  rewrite (perform_not_started d c Hs Hc). now apply IH.
Qed.

End DriverFacts.




(** C2. When the messenger fails to start, [Start] rolls back: it returns
    [NOT_STARTED], the driver's status is [NOT_STARTED], and the driver is
    as it was before the call, so that [stopped] remains [true]. *)
Theorem Start_messenger_failure_rolls_back
    (d : scheduler.MesosSchedulerDriver) (err : error) :
  scheduler.status d = scheduler.DRIVER_NOT_STARTED ->
  scheduler.stopped d = true ->
  scheduler.m_Start (scheduler.messenger d) = Some err ->
  scheduler.returned (scheduler.Start d) = scheduler.DRIVER_NOT_STARTED
  /\ scheduler.status (scheduler.driver_after (scheduler.Start d)) =
       scheduler.DRIVER_NOT_STARTED
  /\ scheduler.stopped (scheduler.driver_after (scheduler.Start d)) = true
  /\ scheduler.driver_after (scheduler.Start d) = d.
Proof.
  intros Hs Hstopped Hstart. unfold scheduler.Start.
  rewrite Hs, Hstart. cbn [scheduler.returned scheduler.driver_after fst snd].
  assert (Hd : scheduler.with_status d scheduler.DRIVER_NOT_STARTED = d).
  { rewrite <- Hs. apply with_status_same. }
  rewrite Hd. now repeat split.
Qed.

Lemma Start_messenger_failure_rolls_back_witness :
  scheduler.returned (scheduler.Start messengerFailureDriver) =
    scheduler.DRIVER_NOT_STARTED
  /\ scheduler.status (scheduler.driver_after (scheduler.Start messengerFailureDriver)) =
       scheduler.DRIVER_NOT_STARTED
  /\ scheduler.stopped (scheduler.driver_after (scheduler.Start messengerFailureDriver)) =
       true
  /\ scheduler.driver_after (scheduler.Start messengerFailureDriver) =
       messengerFailureDriver.
Proof.
  apply (Start_messenger_failure_rolls_back messengerFailureDriver
           "Failed to start messenger"); reflexivity.
Defined.

(** C3. On a driver that is [RUNNING], [LaunchTasks] and [KillTask] return
    [RUNNING] whatever the messenger answers to the send, a failure
    included, and the driver, its status with it, is left as it was. *)
Theorem task_control_fire_and_forget (d : scheduler.MesosSchedulerDriver) :
  scheduler.status d = scheduler.DRIVER_RUNNING ->
  (forall offerId tasks filters,
     scheduler.returned (scheduler.LaunchTasks d offerId tasks filters) =
       scheduler.DRIVER_RUNNING
     /\ scheduler.driver_after (scheduler.LaunchTasks d offerId tasks filters) = d
     /\ scheduler.calls (scheduler.LaunchTasks d offerId tasks filters) =
          [scheduler.MSend (scheduler.MasterUPID d)
             (scheduler.LaunchTasksMessage (scheduler.FrameworkInfo_ d)
                offerId tasks filters)])
  /\
  (forall taskId,
     scheduler.returned (scheduler.KillTask d taskId) = scheduler.DRIVER_RUNNING
     /\ scheduler.driver_after (scheduler.KillTask d taskId) = d
     /\ scheduler.calls (scheduler.KillTask d taskId) =
          [scheduler.MSend (scheduler.MasterUPID d)
             (scheduler.KillTaskMessage (scheduler.FrameworkInfo_ d) taskId)]).
Proof.
  intros Hs. split.
  - intros offerId tasks filters. unfold scheduler.LaunchTasks. rewrite Hs.
    destruct (scheduler.m_Send _ _ _); now repeat split.
  - intros taskId. unfold scheduler.KillTask. rewrite Hs.
    destruct (scheduler.m_Send _ _ _); now repeat split.
Qed.

Lemma task_control_fire_and_forget_witness :
  scheduler.m_Send (scheduler.messenger sendFailureDriver)
    (scheduler.MasterUPID sendFailureDriver)
    (scheduler.KillTaskMessage (scheduler.FrameworkInfo_ sendFailureDriver) "test-task-1")
  = Some "Unable to send message"
  /\ scheduler.returned
       (scheduler.LaunchTasks sendFailureDriver "" [scheduler.task] None) =
       scheduler.DRIVER_RUNNING
  /\ scheduler.returned (scheduler.KillTask sendFailureDriver "test-task-1") =
       scheduler.DRIVER_RUNNING.
Proof.
  split; [reflexivity|]. split.
  - apply (proj1 (task_control_fire_and_forget sendFailureDriver eq_refl)
             "" [scheduler.task] None).
  - apply (proj2 (task_control_fire_and_forget sendFailureDriver eq_refl)
             "test-task-1").
Defined.

(** C4. On a driver that has not been started, [LaunchTasks], [KillTask]
    and [Join] return [NOT_STARTED]; the first two leave the driver as it
    was and call nothing on the messenger, and [Join] returns without
    waiting for the stop signal. *)
Theorem guard_before_Start (d : scheduler.MesosSchedulerDriver) :
  scheduler.status d = scheduler.DRIVER_NOT_STARTED ->
  (forall offerId tasks filters,
     scheduler.LaunchTasks d offerId tasks filters =
       (scheduler.DRIVER_NOT_STARTED, d, []))
  /\ (forall taskId,
        scheduler.KillTask d taskId = (scheduler.DRIVER_NOT_STARTED, d, []))
  /\ scheduler.Join d = scheduler.JoinReturns scheduler.DRIVER_NOT_STARTED.
Proof.
  intros Hs. unfold scheduler.LaunchTasks, scheduler.KillTask, scheduler.Join.
  rewrite Hs. repeat split.
Qed.

Lemma guard_before_Start_witness :
  scheduler.LaunchTasks unstartedDriver "" [scheduler.task] None =
    (scheduler.DRIVER_NOT_STARTED, unstartedDriver, [])
  /\ scheduler.KillTask unstartedDriver "test-task-1" =
       (scheduler.DRIVER_NOT_STARTED, unstartedDriver, [])
  /\ scheduler.Join unstartedDriver =
       scheduler.JoinReturns scheduler.DRIVER_NOT_STARTED.
Proof.
  destruct (guard_before_Start unstartedDriver eq_refl) as [HL [HK HJ]].
  split; [apply HL|]. split; [apply HK|exact HJ].
Defined.

(** The guard holds on every driver made by the constructor and given any
    calls but [Start]. *)
Lemma guard_on_never_started (user host : string) (fw : scheduler.FrameworkInfo)
    (m : scheduler.UPID) (msgr : scheduler.Messenger) (cs : list scheduler.control) :
  forallb (fun c => negb (scheduler.control_is_Start c)) cs = true ->
  scheduler.status
    (scheduler.perform_all (scheduler.NewMesosSchedulerDriver user host fw m msgr) cs)
  = scheduler.DRIVER_NOT_STARTED.
Proof.
  intros H. now rewrite never_started.
Qed.

(** C5. On a [RUNNING] driver [Abort] returns [ABORTED] and leaves the
    driver [ABORTED] with [stopped = true]; [Stop] returns [STOPPED] and
    leaves it [STOPPED] with [stopped = true].  A caller suspended in [Join]
    (or in [Run], which waits in [Join]) is released by either, and gets
    back the status the terminating call returned. *)
Theorem Abort_Stop_terminal (d : scheduler.MesosSchedulerDriver) :
  scheduler.status d = scheduler.DRIVER_RUNNING ->
  (scheduler.returned (scheduler.Abort d) = scheduler.DRIVER_ABORTED
   /\ scheduler.status (scheduler.driver_after (scheduler.Abort d)) =
        scheduler.DRIVER_ABORTED
   /\ scheduler.stopped (scheduler.driver_after (scheduler.Abort d)) = true
   /\ scheduler.Join_wait (scheduler.driver_after (scheduler.Abort d)) =
        scheduler.JoinReturns (scheduler.returned (scheduler.Abort d))
   /\ scheduler.Join (scheduler.driver_after (scheduler.Abort d)) =
        scheduler.JoinReturns (scheduler.returned (scheduler.Abort d)))
  /\
  (forall failover,
     scheduler.returned (scheduler.Stop d failover) = scheduler.DRIVER_STOPPED
     /\ scheduler.status (scheduler.driver_after (scheduler.Stop d failover)) =
          scheduler.DRIVER_STOPPED
     /\ scheduler.stopped (scheduler.driver_after (scheduler.Stop d failover)) = true
     /\ scheduler.Join_wait (scheduler.driver_after (scheduler.Stop d failover)) =
          scheduler.JoinReturns (scheduler.returned (scheduler.Stop d failover))
     /\ scheduler.Join (scheduler.driver_after (scheduler.Stop d failover)) =
          scheduler.JoinReturns (scheduler.returned (scheduler.Stop d failover))).
Proof.
  intros Hs. unfold scheduler.Abort, scheduler.Stop. rewrite Hs.
  split; [|intros failover]; repeat split.
Qed.

Lemma Abort_Stop_terminal_witness :
  scheduler.Run (scheduler.newTestDriver (scheduler.NewMockedMessenger None None None))
    = (scheduler.JoinBlocks, runningDriver,
       scheduler.calls
         (scheduler.Start
            (scheduler.newTestDriver (scheduler.NewMockedMessenger None None None))))
  /\ scheduler.Join_wait (scheduler.driver_after (scheduler.Abort runningDriver)) =
       scheduler.JoinReturns scheduler.DRIVER_ABORTED
  /\ scheduler.Join_wait (scheduler.driver_after (scheduler.Stop runningDriver false)) =
       scheduler.JoinReturns scheduler.DRIVER_STOPPED.
Proof.
  split; [reflexivity|].
  destruct (Abort_Stop_terminal runningDriver eq_refl) as [HA HS].
  split.
  - exact (proj1 (proj2 (proj2 (proj2 HA)))).
  - exact (proj1 (proj2 (proj2 (proj2 (HS false))))).
Defined.

(** [Run] on a new driver whose messenger works: the caller is suspended,
    and whichever call ends the driver, it resumes with that call's
    status. *)
Lemma Run_resumes_with_terminal_status (d : scheduler.MesosSchedulerDriver) :
  scheduler.status d = scheduler.DRIVER_NOT_STARTED ->
  scheduler.stopCh_closed d = false ->
  scheduler.m_Start (scheduler.messenger d) = None ->
  scheduler.m_Send (scheduler.messenger d) (scheduler.MasterUPID d)
    (scheduler.RegisterFrameworkMessage (scheduler.FrameworkInfo_ d)) = None ->
  let '(j, running, _) := scheduler.Run d in
  j = scheduler.JoinBlocks
  /\ scheduler.status running = scheduler.DRIVER_RUNNING
  /\ scheduler.Join_wait (scheduler.driver_after (scheduler.Abort running)) =
       scheduler.JoinReturns scheduler.DRIVER_ABORTED
  /\ forall failover,
       scheduler.Join_wait (scheduler.driver_after (scheduler.Stop running failover)) =
         scheduler.JoinReturns scheduler.DRIVER_STOPPED.
Proof.
  intros Hs Hch Hstart Hsend.
  unfold scheduler.Run, scheduler.Start. rewrite Hs, Hstart, Hsend.
  cbn. unfold scheduler.Join_wait. cbn. rewrite Hch. now repeat split.
Qed.

(** * Further properties of the detector client *)

(** ** The order of [sort.Strings] *)

Lemma string_leb_trans (a b c : string) :
  String.leb a b = true -> String.leb b c = true -> String.leb a c = true.
Proof.
  unfold String.leb. revert b c.
  induction a as [|x a IH]; intros [|y b] [|z c]; simpl; try congruence.
  unfold Ascii.compare.
  destruct (N.compare_spec (Ascii.N_of_ascii x) (Ascii.N_of_ascii y)) as [Hxy|Hxy|Hxy];
    destruct (N.compare_spec (Ascii.N_of_ascii y) (Ascii.N_of_ascii z)) as [Hyz|Hyz|Hyz];
    destruct (N.compare_spec (Ascii.N_of_ascii x) (Ascii.N_of_ascii z)) as [Hxz|Hxz|Hxz];
    try congruence; try (exfalso; lia).
  apply IH.
Qed.

Lemma string_leb_refl (a : string) : String.leb a a = true.
Proof. destruct (String.leb_total a a); assumption. Qed.

Lemma sort_Strings_StronglySorted (l : list string) :
  StronglySorted (fun a b => String.leb a b = true) (sort_Strings l).
Proof.
  apply (StringSort.StronglySorted_sort l).
  intros a b c. exact (string_leb_trans a b c).
Qed.

(** A list sorted by an antisymmetric order is the only sorted arrangement
    of its elements. *)
Lemma sorted_arrangement_unique (l l' : list string) :
  StronglySorted (fun a b => String.leb a b = true) l ->
  StronglySorted (fun a b => String.leb a b = true) l' ->
  Permutation l l' ->
  l = l'.
Proof.
  intros Hl. revert l'. induction Hl as [|x l Hl IH Hx]; intros l' Hl' Hp.
  - now apply Permutation_nil in Hp.
  - destruct Hl' as [|y l' Hl' Hy].
    + apply Permutation_sym, Permutation_nil in Hp. discriminate.
    + assert (Hxy : x = y).
      { assert (Hin : In x (y :: l')) by (eapply Permutation_in; [exact Hp|now left]).
        assert (Hin' : In y (x :: l))
          by (eapply Permutation_in; [exact (Permutation_sym Hp)|now left]).
        destruct Hin as [->|Hin]; [reflexivity|].
        destruct Hin' as [->|Hin']; [reflexivity|].
        rewrite Forall_forall in Hx, Hy.
        apply String.leb_antisym; [now apply Hx|now apply Hy]. }
      subst y. f_equal. apply IH; [exact Hl'|].
      now apply Permutation_cons_inv in Hp.
Qed.

(** ** [list] *)

(** X1. What [list] returns does not depend on the order in which the
    connection reports the children: two connections reporting the same
    names, in whatever order, give the same listing; and names reported in
    ascending order already are returned as they are. *)
Theorem list_order_independent (zkc zkc' : zkClient) (c c' : zkConnector)
    (path : string) (cs cs' : list string) :
  connected zkc = true -> conn zkc = Some c -> Children c path = Reply cs ->
  connected zkc' = true -> conn zkc' = Some c' -> Children c' path = Reply cs' ->
  Permutation cs cs' ->
  list_ zkc path = list_ zkc' path
  /\ (StronglySorted (fun a b => String.leb a b = true) cs ->
      list_ zkc path = Returned (Reply cs) [ActChildren path]).
Proof.
  intros Hc Hconn Hcs Hc' Hconn' Hcs' Hp.
  rewrite (list_connected zkc c path Hc Hconn), Hcs.
  rewrite (list_connected zkc' c' path Hc' Hconn'), Hcs'.
  split.
  - f_equal. f_equal.
    apply sorted_arrangement_unique; try apply sort_Strings_StronglySorted.
    eapply Permutation_trans; [apply Permutation_sym, StringSort.Permuted_sort|].
    eapply Permutation_trans; [exact Hp|apply StringSort.Permuted_sort].
  - intros Hs. f_equal. f_equal.
    apply sorted_arrangement_unique;
      [apply sort_Strings_StronglySorted|exact Hs|].
    apply Permutation_sym, StringSort.Permuted_sort.
Qed.

Lemma list_order_independent_witness :
  list_ (set_connected (set_conn makeZkClient (connectorWithChildren ["a"; "d"; "x"])) true)
        "/test"
  = list_ (set_connected (set_conn makeZkClient (connectorWithChildren ["x"; "a"; "d"])) true)
          "/test"
  /\ list_ (set_connected (set_conn makeZkClient (connectorWithChildren ["a"; "d"; "x"])) true)
           "/test"
     = Returned (Reply ["a"; "d"; "x"]) [ActChildren "/test"].
Proof.
  assert (Hperm : Permutation ["a"; "d"; "x"] ["x"; "a"; "d"]).
  { apply perm_trans with (l' := ["a"; "x"; "d"]).
    - apply perm_skip. apply perm_swap.
    - apply perm_swap. }
  destruct (list_order_independent
              (set_connected (set_conn makeZkClient (connectorWithChildren ["a"; "d"; "x"])) true)
              (set_connected (set_conn makeZkClient (connectorWithChildren ["x"; "a"; "d"])) true)
              (connectorWithChildren ["a"; "d"; "x"])
              (connectorWithChildren ["x"; "a"; "d"])
              "/test" ["a"; "d"; "x"] ["x"; "a"; "d"]
              eq_refl eq_refl eq_refl eq_refl eq_refl eq_refl Hperm)
    as [Hsame Hsorted].
  split; [exact Hsame|]. apply Hsorted.
  repeat (apply SSorted_cons; [|repeat (apply Forall_cons; [reflexivity|]); apply Forall_nil]).
  apply SSorted_nil.
Defined.

(** X2. The listing holds exactly the names the connection reported, as
    many times each (same length, same members), and its first name is the
    least of them: no reported name is strictly below it.  An empty report
    gives an empty listing. *)
Theorem list_head_is_least (zkc : zkClient) (c : zkConnector)
    (path : string) (cs : list string) :
  connected zkc = true -> conn zkc = Some c -> Children c path = Reply cs ->
  exists names,
    list_ zkc path = Returned (Reply names) [ActChildren path]
    /\ List.length names = List.length cs
    /\ (forall n, In n names <-> In n cs)
    /\ match names with
       | [] => cs = []
       | first :: _ => forall n, In n cs -> String.leb first n = true
       end.
Proof.
  intros Hc Hconn Hcs. exists (sort_Strings cs).
  pose proof (StringSort.Permuted_sort cs) as Hp. fold (sort_Strings cs) in Hp.
  pose proof (sort_Strings_StronglySorted cs) as Hs.
  rewrite (list_connected zkc c path Hc Hconn), Hcs.
  split; [reflexivity|]. split; [|split].
  - symmetry. now apply Permutation_length.
  - intros n. split; intros Hin.
    + eapply Permutation_in; [exact (Permutation_sym Hp)|exact Hin].
    + eapply Permutation_in; [exact Hp|exact Hin].
  - destruct (sort_Strings cs) as [|first rest] eqn:Hsort.
    + now apply Permutation_sym, Permutation_nil in Hp.
    + intros n Hin.
      assert (Hin' : In n (first :: rest)) by (eapply Permutation_in; eauto).
      destruct Hin' as [<-|Hin']; [apply string_leb_refl|].
      apply StronglySorted_inv in Hs as [_ Hall].
      rewrite Forall_forall in Hall. now apply Hall.
Qed.

Lemma list_head_is_least_witness :
  exists names,
    list_ connectedClient test_zk_path = Returned (Reply names) [ActChildren test_zk_path]
    /\ List.length names = 3
    /\ (forall n, In n names <-> In n ["x"; "a"; "d"])
    /\ match names with
       | [] => ["x"; "a"; "d"] = []
       | first :: _ => forall n, In n ["x"; "a"; "d"] -> String.leb first n = true
       end.
Proof.
  apply (list_head_is_least connectedClient (makeMockConnector test_zk_path [])
           test_zk_path ["x"; "a"; "d"]); reflexivity.
Defined.

(** ** The session activity and [connect] *)

Lemma same_settings_refl (zkc : zkClient) : same_settings zkc zkc.
Proof. now repeat split. Qed.

Lemma same_settings_trans (a b c : zkClient) :
  same_settings a b -> same_settings b c -> same_settings a c.
Proof.
  unfold same_settings. intros H1 H2.
  destruct H1 as (? & ? & ? & ? & ? & ? & ?), H2 as (? & ? & ? & ? & ? & ? & ?).
  repeat split; congruence.
Qed.

Lemma same_settings_error_watcher (a b : zkClient) :
  same_settings a b -> error_watcher_returns a -> error_watcher_returns b.
Proof.
  intros (_ & _ & _ & _ & _ & _ & Hew) Hret ew err H.
  apply Hret. congruence.
Qed.

(** What one turn of the session loop does to the client, when it returns:
    nothing but [connected] changes, and [connected] is set exactly on the
    two connected states. *)
Lemma session_event_frame (s s' : session) (e : zk.Event) (t : trace) :
  session_event s e = Returned s' t ->
  same_settings (s_client s) (s_client s')
  /\ connected (s_client s') = connected (s_client s) || sets_connected e
  /\ s_waitClosed s' = s_waitClosed s || is_connected_event e.
Proof.
  unfold session_event, sets_connected, is_connected_event.
  destruct (report_event_error (s_client s) e) as [[] t0|t0|t0]; simpl; try discriminate.
  destruct (zk.State_ e); simpl;
    try (intros [= <- _]; simpl; rewrite ?orb_false_r, ?orb_true_r;
         repeat split; reflexivity).
  destruct (s_waitClosed s); simpl; [discriminate|].
  intros [= <- _]; simpl. rewrite orb_true_r. repeat split; reflexivity.
Qed.

(** With an error watcher that returns, a turn of the loop ends: it
    returns, unless the event is a [StateConnected] arriving when
    [waitConnCh] is closed already. *)
Lemma session_event_returns (s : session) (e : zk.Event) :
  error_watcher_returns (s_client s) ->
  s_waitClosed s && is_connected_event e = false ->
  exists s',
    session_event s e =
      Returned s' (run_trace (report_event_error (s_client s) e) ++ []).
Proof.
  intros Hret Hok. unfold session_event.
  rewrite (report_event_error_returns (s_client s) e Hret).
  unfold is_connected_event in Hok.
  destruct (zk.State_ e); simpl; try (now eexists).
  rewrite andb_true_r in Hok. rewrite Hok. now eexists.
Qed.

Lemma session_event_trace (s : session) (e : zk.Event) (a : action) :
  In a (run_trace (session_event s e)) -> exists err, a = ActErrorOccured err.
Proof.
  unfold session_event. intros Hin.
  apply (report_event_error_trace (s_client s) e).
  destruct (report_event_error (s_client s) e) as [[] t0|t0|t0]; simpl in *;
    try exact Hin.
  destruct (zk.State_ e); simpl in Hin; rewrite ?app_nil_r in Hin; try exact Hin.
  destruct (s_waitClosed s); simpl in Hin; rewrite ?app_nil_r in Hin; exact Hin.
Qed.

Lemma await_connected_trace (es : list zk.Event) (s s' : session) (t : trace)
    (w : wait_end) (a : action) :
  await_connected s es = (s', t, w) ->
  In a t -> exists err, a = ActErrorOccured err.
Proof.
  revert s s' t w. induction es as [|e es IH]; intros s s' t w; simpl.
  - intros [= _ <- _] [].
  - pose proof (session_event_trace s e a) as Hev.
    destruct (session_event s e) as [s1 t1|t1|t1]; simpl in Hev.
    + destruct (s_waitClosed s1).
      * intros [= _ <- _]. exact Hev.
      * destruct (await_connected s1 es) as [[s2 t2] w2] eqn:Ha.
        intros [= _ <- _] Hin. apply in_app_or in Hin as [Hin|Hin]; [now apply Hev|].
        exact (IH s1 s2 t2 w2 Ha Hin).
    + intros [= _ <- _]. exact Hev.
    + intros [= _ <- _]. exact Hev.
Qed.

(** How the wait of [connect] ends, with an error watcher that returns: it
    is released exactly when a [StateConnected] event arrives in time. *)
Lemma await_connected_outcome (es : list zk.Event) (s : session) :
  error_watcher_returns (s_client s) ->
  s_waitClosed s = false ->
  exists s' t,
    await_connected s es =
      (s', t, if existsb is_connected_event es then WaitClosed else WaitTimer)
    /\ same_settings (s_client s) (s_client s')
    /\ s_waitClosed s' = existsb is_connected_event es
    /\ (existsb is_connected_event es = true -> connected (s_client s') = true)
    /\ (existsb is_connected_event es = false ->
        connected (s_client s') = connected (s_client s) || existsb sets_connected es).
Proof.
  revert s. induction es as [|e es IH]; intros s Hret Hw; simpl.
  - exists s, []. split; [reflexivity|]. split; [apply same_settings_refl|].
    split; [exact Hw|]. split; [discriminate|].
    intros _. now rewrite orb_false_r.
  - destruct (session_event_returns s e Hret) as [s1 H1]; [now rewrite Hw|].
    rewrite H1. destruct (session_event_frame s s1 e _ H1) as (Hsame & Hconn & Hclosed).
    rewrite Hw in Hclosed. simpl in Hclosed. rewrite Hclosed.
    destruct (is_connected_event e) eqn:He; simpl.
    + exists s1, (run_trace (report_event_error (s_client s) e) ++ []).
      split; [reflexivity|]. split; [exact Hsame|]. split; [exact Hclosed|].
      split; [|discriminate].
      intros _. rewrite Hconn. unfold sets_connected.
      unfold is_connected_event in He.
      destruct (zk.State_ e); try discriminate. apply orb_true_r.
    + destruct (IH s1 (same_settings_error_watcher _ _ Hsame Hret) Hclosed)
        as (s2 & t2 & Ha & Hsame2 & Hcl2 & Hyes & Hno).
      rewrite Ha. eexists. eexists. split; [reflexivity|].
      split; [eapply same_settings_trans; eauto|].
      split; [exact Hcl2|]. split; [exact Hyes|].
      intros Hnone. rewrite (Hno Hnone), Hconn. now rewrite orb_assoc.
Qed.

(** X3. A client that is not connected dials exactly once in [connect],
    first of all: the trace of the call starts with the [zk.Connect] call on
    the client's hosts and timeout, and holds nothing after it but calls to
    the error watcher. *)
Theorem connect_dials_once (dial : dialer) (zkc : zkClient) :
  connected zkc = false ->
  exists t,
    run_trace (connect dial zkc) = ActDial (hosts zkc) (connTimeout zkc) :: t
    /\ forall a, In a t -> exists err, a = ActErrorOccured err.
Proof.
  intros Hc. unfold connect. rewrite Hc. simpl.
  destruct (dial (hosts zkc) (connTimeout zkc)) as [[c es]|err]; simpl.
  - destruct (await_connected _ es) as [[s t] w] eqn:Ha.
    exists t. split.
    + destruct w; simpl; try reflexivity.
      now destruct (connected (s_client s)).
    + intros a. eapply await_connected_trace; eauto.
  - exists []. split; [reflexivity|intros a []].
Qed.

Lemma connect_dials_once_witness :
  exists t,
    run_trace (connect (dialWith [connectedWithErrorEvent])
                 (with_errorWatcher makeZkClient promptErrorWatcher))
    = ActDial test_zk_hosts (Second * 5) :: t
    /\ forall a, In a t -> exists err, a = ActErrorOccured err.
Proof.
  apply (connect_dials_once (dialWith [connectedWithErrorEvent])
           (with_errorWatcher makeZkClient promptErrorWatcher)).
  reflexivity.
Defined.

(** A client that is not connected starts [connect] by dialing. *)
Lemma connect_unconnected_dials (dial : dialer) (zkc : zkClient) :
  connected zkc = false ->
  exists t,
    run_trace (connect dial zkc) = ActDial (hosts zkc) (connTimeout zkc) :: t.
Proof.
  intros Hc. unfold connect. rewrite Hc. simpl.
  destruct (dial (hosts zkc) (connTimeout zkc)) as [[c es]|err]; simpl.
  - destruct (await_connected _ es) as [[s t] w]. exists t.
    destruct w; simpl; try reflexivity.
    now destruct (connected (s_client s)).
  - now exists [].
Qed.

(** X4. When [zk.Connect] fails, [connect] returns its error and leaves the
    client as it was, still not connected, and no session activity is
    spawned; a further [connect] on that client dials again. *)
Theorem connect_dial_failure (dial dial' : dialer) (zkc : zkClient) (err : error) :
  connected zkc = false ->
  dial (hosts zkc) (connTimeout zkc) = Failure err ->
  connect dial zkc =
    Returned (Some err, zkc, None) [ActDial (hosts zkc) (connTimeout zkc)]
  /\ exists t,
       run_trace (connect dial' zkc) = ActDial (hosts zkc) (connTimeout zkc) :: t.
Proof.
  intros Hc Hd. split.
  - unfold connect. rewrite Hc. simpl. now rewrite Hd.
  - now apply connect_unconnected_dials.
Qed.

Lemma connect_dial_failure_witness :
  connect (dialFailing "zk: could not connect to a server") makeZkClient =
    Returned (Some "zk: could not connect to a server", makeZkClient, None)
      [ActDial test_zk_hosts (Second * 5)]
  /\ exists t,
       run_trace (connect mockDial makeZkClient) =
         ActDial test_zk_hosts (Second * 5) :: t.
Proof.
  apply (connect_dial_failure (dialFailing "zk: could not connect to a server")
           mockDial makeZkClient "zk: could not connect to a server");
    reflexivity.
Defined.

(** [connect] on a client that is not connected, when [zk.Connect] succeeds
    and the error watcher returns. *)
Lemma connect_unconnected_outcome (dial : dialer) (zkc : zkClient)
    (c : zkConnector) (es : list zk.Event) :
  connected zkc = false ->
  dial (hosts zkc) (connTimeout zkc) = Reply (c, es) ->
  error_watcher_returns zkc ->
  exists s t,
    connect dial zkc =
      Returned
        (if existsb is_connected_event es then None
         else Some "Unable to confirm connection after 5s.",
         s_client s, Some s)
        (ActDial (hosts zkc) (connTimeout zkc) :: t)
    /\ same_settings (set_conn zkc c) (s_client s)
    /\ s_waitClosed s = existsb is_connected_event es
    /\ (existsb is_connected_event es = true -> connected (s_client s) = true)
    /\ (existsb is_connected_event es = false ->
        connected (s_client s) = existsb sets_connected es).
Proof.
  intros Hc Hd Hret. unfold connect. rewrite Hc. simpl. rewrite Hd. simpl.
  destruct (await_connected_outcome es
              {| s_client := set_conn zkc c; s_waitClosed := false |} Hret eq_refl)
    as (s & t & Ha & Hsame & Hcl & Hyes & Hno).
  rewrite Ha. exists s, t. simpl in Hno. rewrite Hc in Hno. simpl in Hno.
  split; [|split; [exact Hsame|split; [exact Hcl|split; [exact Hyes|exact Hno]]]].
  destruct (existsb is_connected_event es) eqn:Hex; simpl; [|reflexivity].
  now rewrite (Hyes eq_refl).
Qed.

(** X5. On a client that is not connected, with an error watcher that
    returns (or none), [connect] succeeds exactly when a [StateConnected]
    event arrives before the timer fires: then it returns nil, the client is
    connected through the connection [zk.Connect] gave, and the session
    activity lives on with [waitConnCh] closed.  Otherwise it returns the
    timeout error; the connection stays installed and the session activity
    keeps running. *)
Theorem connect_confirmed_iff_connected_event (dial : dialer) (zkc : zkClient)
    (c : zkConnector) (es : list zk.Event) :
  connected zkc = false ->
  dial (hosts zkc) (connTimeout zkc) = Reply (c, es) ->
  error_watcher_returns zkc ->
  exists zkc' s t,
    connect dial zkc =
      Returned
        (if existsb is_connected_event es then None
         else Some "Unable to confirm connection after 5s.",
         zkc', Some s)
        (ActDial (hosts zkc) (connTimeout zkc) :: t)
    /\ s_client s = zkc'
    /\ conn zkc' = Some c
    /\ s_waitClosed s = existsb is_connected_event es
    /\ (existsb is_connected_event es = true -> connected zkc' = true).
Proof.
  intros Hc Hd Hret.
  destruct (connect_unconnected_outcome dial zkc c es Hc Hd Hret)
    as (s & t & H & (Hconn & _) & Hcl & Hyes & _).
  exists (s_client s), s, t.
  split; [exact H|]. split; [reflexivity|]. split; [exact Hconn|].
  split; [exact Hcl|exact Hyes].
Qed.

Lemma connect_confirmed_iff_connected_event_witness :
  (exists zkc' s t,
     connect (dialWith [connectingEvent; connectedEvent]) makeZkClient =
       Returned (None, zkc', Some s) (ActDial test_zk_hosts (Second * 5) :: t)
     /\ s_client s = zkc'
     /\ conn zkc' = Some (makeMockConnector test_zk_path [])
     /\ s_waitClosed s = true
     /\ (true = true -> connected zkc' = true))
  /\
  (exists zkc' s t,
     connect (dialWith [connectingEvent]) makeZkClient =
       Returned (Some "Unable to confirm connection after 5s.", zkc', Some s)
         (ActDial test_zk_hosts (Second * 5) :: t)
     /\ s_client s = zkc'
     /\ conn zkc' = Some (makeMockConnector test_zk_path [])
     /\ s_waitClosed s = false
     /\ (false = true -> connected zkc' = true)).
Proof.
  split.
  - apply (connect_confirmed_iff_connected_event
             (dialWith [connectingEvent; connectedEvent]) makeZkClient
             (makeMockConnector test_zk_path []) [connectingEvent; connectedEvent]);
      try reflexivity.
    intros ew err H. discriminate H.
  - apply (connect_confirmed_iff_connected_event
             (dialWith [connectingEvent]) makeZkClient
             (makeMockConnector test_zk_path []) [connectingEvent]);
      try reflexivity.
    intros ew err H. discriminate H.
Defined.

(** X6. The errors [connect] returns are the error of [zk.Connect] and the
    timeout error, and no other: its check of [connected] after the
    confirmation never fails, since the session activity sets the flag
    before it closes [waitConnCh]. *)
Theorem connect_error_kinds (dial : dialer) (zkc zkc' : zkClient)
    (os : option session) (err : error) (t : trace) :
  connect dial zkc = Returned (Some err, zkc', os) t ->
  dial (hosts zkc) (connTimeout zkc) = Failure err
  \/ err = "Unable to confirm connection after 5s.".
Proof.
  unfold connect. destruct (connected zkc); [discriminate|]. simpl.
  destruct (dial (hosts zkc) (connTimeout zkc)) as [[c es]|err0]; simpl.
  - destruct (await_connected _ es) as [[s t1] w] eqn:Ha.
    destruct w; simpl; try discriminate.
    + rewrite (await_connected_closed es _ s t1 Ha eq_refl). discriminate.
    + intros [= <- _ _ _]. now right.
    + intros [= <- _ _ _]. now right.
  - intros [= <- _ _ _]. now left.
Qed.

Lemma connect_error_kinds_witness :
  dialWith [syncConnectedEvent] (hosts makeZkClient) (connTimeout makeZkClient) =
    Failure "Unable to confirm connection after 5s."
  \/ "Unable to confirm connection after 5s." = "Unable to confirm connection after 5s.".
Proof.
  apply (connect_error_kinds (dialWith [syncConnectedEvent]) makeZkClient
           (set_connected (set_conn makeZkClient (makeMockConnector test_zk_path [])) true)
           (Some {| s_client :=
                      set_connected
                        (set_conn makeZkClient (makeMockConnector test_zk_path [])) true;
                    s_waitClosed := false |})
           "Unable to confirm connection after 5s."
           [ActDial test_zk_hosts (Second * 5)]).
  reflexivity.
Defined.

(** X7. [StateSyncConnected] sets [connected] without closing
    [waitConnCh]: when such an event arrives and no [StateConnected] does,
    [connect] returns the timeout error although the client is connected
    by then, and a second [connect] returns nil at once, without dialing. *)
Theorem connect_times_out_though_connected (dial dial' : dialer) (zkc : zkClient)
    (c : zkConnector) (es : list zk.Event) :
  connected zkc = false ->
  dial (hosts zkc) (connTimeout zkc) = Reply (c, es) ->
  error_watcher_returns zkc ->
  existsb is_connected_event es = false ->
  existsb sets_connected es = true ->
  exists zkc' s t,
    connect dial zkc =
      Returned (Some "Unable to confirm connection after 5s.", zkc', Some s) t
    /\ connected zkc' = true
    /\ connect dial' zkc' = Returned (None, zkc', None) [].
Proof.
  intros Hc Hd Hret Hnone Hsync.
  destruct (connect_unconnected_outcome dial zkc c es Hc Hd Hret)
    as (s & t & H & _ & _ & _ & Hno).
  rewrite Hnone in H. specialize (Hno Hnone). rewrite Hsync in Hno.
  exists (s_client s), s, (ActDial (hosts zkc) (connTimeout zkc) :: t).
  split; [exact H|]. split; [exact Hno|].
  unfold connect. now rewrite Hno.
Qed.

Lemma connect_times_out_though_connected_witness :
  exists zkc' s t,
    connect (dialWith [connectingEvent; syncConnectedEvent]) makeZkClient =
      Returned (Some "Unable to confirm connection after 5s.", zkc', Some s) t
    /\ connected zkc' = true
    /\ connect mockDial zkc' = Returned (None, zkc', None) [].
Proof.
  apply (connect_times_out_though_connected
           (dialWith [connectingEvent; syncConnectedEvent]) mockDial makeZkClient
           (makeMockConnector test_zk_path []) [connectingEvent; syncConnectedEvent]);
    try reflexivity.
  intros ew err H. discriminate H.
Defined.

(** X8. Whatever session events arrive, the session activity changes
    nothing in the client but [connected], and [connected] afterwards is
    [true] exactly if it was before or one of the events reported
    [StateConnected] or [StateSyncConnected]: no event clears it. *)
Theorem session_events_frame (s s' : session) (es : list zk.Event) (t : trace) :
  session_events s es = Returned s' t ->
  same_settings (s_client s) (s_client s')
  /\ connected (s_client s') = connected (s_client s) || existsb sets_connected es.
Proof.
  revert s t. induction es as [|e es IH]; intros s t; simpl.
  - intros [= <- _]. split; [apply same_settings_refl|now rewrite orb_false_r].
  - destruct (session_event s e) as [s1 t1|t1|t1] eqn:H1; simpl; try discriminate.
    destruct (session_events s1 es) as [s2 t2|t2|t2] eqn:H2; try discriminate.
    intros [= <- _].
    destruct (session_event_frame s s1 e t1 H1) as (Hsame & Hconn & _).
    destruct (IH s1 t2 H2) as (Hsame' & Hconn').
    split; [eapply same_settings_trans; eauto|].
    now rewrite Hconn', Hconn, orb_assoc.
Qed.

Lemma session_events_frame_witness :
  same_settings connectedClient connectedClient
  /\ connected connectedClient = true || existsb sets_connected [disconnectedEvent; expiredEvent].
Proof.
  apply (session_events_frame
           {| s_client := connectedClient; s_waitClosed := true |}
           {| s_client := connectedClient; s_waitClosed := true |}
           [disconnectedEvent; expiredEvent] []).
  reflexivity.
Defined.

(** X9. The session activity closes [waitConnCh] on every [StateConnected]
    event.  After a [connect] that succeeded the channel is closed, so the
    next [StateConnected] event (a reconnection) makes the session activity
    panic, once it has reported the event's error. *)
Theorem second_connected_event_crashes (dial : dialer) (zkc zkc' : zkClient)
    (s : session) (t : trace) (e : zk.Event) :
  connected zkc = false ->
  error_watcher_returns zkc ->
  connect dial zkc = Returned (None, zkc', Some s) t ->
  zk.State_ e = zk.StateConnected ->
  session_event s e = Crashed (run_trace (report_event_error zkc' e) ++ []).
Proof.
  intros Hc Hret Hconnect He.
  destruct (dial (hosts zkc) (connTimeout zkc)) as [[c es]|err] eqn:Hd.
  - destruct (connect_unconnected_outcome dial zkc c es Hc Hd Hret)
      as (s1 & t1 & H1 & Hsame & Hcl & _).
    rewrite H1 in Hconnect.
    destruct (existsb is_connected_event es); [|discriminate].
    injection Hconnect as <- <- _.
    unfold session_event.
    rewrite (report_event_error_returns (s_client s1) e
               (same_settings_error_watcher _ _ Hsame Hret)).
    rewrite He, Hcl. reflexivity.
  - unfold connect in Hconnect. rewrite Hc in Hconnect. simpl in Hconnect.
    rewrite Hd in Hconnect. discriminate.
Qed.

Lemma second_connected_event_crashes_witness :
  session_event {| s_client := connectedClient; s_waitClosed := true |} connectedEvent
  = Crashed [].
Proof.
  apply (second_connected_event_crashes mockDial makeZkClient connectedClient
           {| s_client := connectedClient; s_waitClosed := true |}
           [ActDial test_zk_hosts (Second * 5)] connectedEvent);
    try reflexivity.
  intros ew err H. discriminate H.
Defined.

(** X10. The error watcher is called from the session activity itself,
    before the event's state is looked at.  If it does not return, the
    activity handles neither that event nor any later one; a [connect]
    waiting for the confirmation then times out, whatever events follow, and
    [connected] stays [false]. *)
Theorem blocked_error_watcher_starves_session (dial : dialer) (zkc : zkClient)
    (c : zkConnector) (ew : zkErrorWatcher) (e : zk.Event) (es : list zk.Event)
    (err : error) :
  connected zkc = false ->
  dial (hosts zkc) (connTimeout zkc) = Reply (c, e :: es) ->
  errorWatcher zkc = Some ew ->
  zk.Err_ e = Some err ->
  errorOccured_returns ew err = false ->
  session_events {| s_client := set_conn zkc c; s_waitClosed := false |} (e :: es)
    = Blocked [ActErrorOccured err]
  /\ connect dial zkc =
       Returned (Some "Unable to confirm connection after 5s.", set_conn zkc c, None)
         [ActDial (hosts zkc) (connTimeout zkc); ActErrorOccured err]
  /\ connected (set_conn zkc c) = false.
Proof.
  intros Hc Hd Hew He Hblock.
  assert (H1 : session_event {| s_client := set_conn zkc c; s_waitClosed := false |} e
               = Blocked [ActErrorOccured err]).
  { unfold session_event, report_event_error, notify_error, call. simpl.
    now rewrite He, Hew, Hblock. }
  split; [|split].
  - simpl. now rewrite H1.
  - unfold connect. rewrite Hc. simpl. rewrite Hd. simpl. now rewrite H1.
  - exact Hc.
Qed.

Lemma blocked_error_watcher_starves_session_witness :
  session_events
    {| s_client := set_conn (with_errorWatcher makeZkClient blockingErrorWatcher)
                     (makeMockConnector test_zk_path []);
       s_waitClosed := false |}
    [connectedWithErrorEvent; connectedEvent]
    = Blocked [ActErrorOccured "Event Error"]
  /\ connect (dialWith [connectedWithErrorEvent; connectedEvent])
       (with_errorWatcher makeZkClient blockingErrorWatcher) =
       Returned (Some "Unable to confirm connection after 5s.",
                 set_conn (with_errorWatcher makeZkClient blockingErrorWatcher)
                   (makeMockConnector test_zk_path []),
                 None)
         [ActDial test_zk_hosts (Second * 5); ActErrorOccured "Event Error"]
  /\ connected (set_conn (with_errorWatcher makeZkClient blockingErrorWatcher)
                  (makeMockConnector test_zk_path [])) = false.
Proof.
  apply (blocked_error_watcher_starves_session
           (dialWith [connectedWithErrorEvent; connectedEvent])
           (with_errorWatcher makeZkClient blockingErrorWatcher)
           (makeMockConnector test_zk_path []) blockingErrorWatcher
           connectedWithErrorEvent [connectedEvent] "Event Error");
    reflexivity.
Defined.

(** ** The connection behind [connected] *)

Lemma await_connected_same_settings (es : list zk.Event) (s s' : session)
    (t : trace) (w : wait_end) :
  await_connected s es = (s', t, w) ->
  same_settings (s_client s) (s_client s').
Proof.
  revert s s' t w. induction es as [|e es IH]; intros s s' t w; simpl.
  - intros [= <- _ _]. apply same_settings_refl.
  - destruct (session_event s e) as [s1 t1|t1|t1] eqn:H1;
      try (intros [= <- _ _]; apply same_settings_refl).
    destruct (session_event_frame s s1 e t1 H1) as (Hsame & _).
    destruct (s_waitClosed s1).
    + intros [= <- _ _]. exact Hsame.
    + destruct (await_connected s1 es) as [[s2 t2] w2] eqn:Ha.
      intros [= <- _ _].
      eapply same_settings_trans; [exact Hsame|exact (IH s1 s2 t2 w2 Ha)].
Qed.

Lemma session_events_conn (es : list zk.Event) (s s' : session) (t : trace) :
  session_events s es = Returned s' t ->
  conn (s_client s') = conn (s_client s).
Proof.
  revert s t. induction es as [|e es IH]; intros s t; simpl.
  - now intros [= <- _].
  - destruct (session_event s e) as [s1 t1|t1|t1] eqn:H1; simpl; try discriminate.
    destruct (session_events s1 es) as [s2 t2|t2|t2] eqn:H2; try discriminate.
    intros [= <- _].
    destruct (session_event_keeps_connected s s1 e t1 H1) as [Hconn _].
    rewrite (IH s1 t2 H2). exact Hconn.
Qed.

Lemma conn_ready_no_panic (zkc : zkClient) (p : string) :
  conn_ready zkc ->
  no_panic (list_ zkc p) /\ no_panic (data zkc p) /\ no_panic (watchChildren zkc p).
Proof.
  unfold conn_ready, list_, data, watchChildren. intros Hready.
  destruct (connected zkc); simpl; [|now repeat split].
  destruct (conn zkc) as [c|]; [|now destruct (Hready eq_refl)].
  simpl. destruct (Children c p), (Get c p), (ChildrenW c (watchPath_of zkc p));
    simpl; now repeat split.
Qed.

(** X11. [connected] is only ever set on a client that has its connection:
    starting from a client whose flag is backed by a connection (a new
    client is, being unconnected), neither [connect], whatever it returns,
    nor the session events that follow leave a connected client without
    one.  So [list], [data] and [watchChildren] never end in the panic of a
    call on a nil connection. *)
Theorem connect_keeps_conn_ready (dial : dialer) (zkc zkc' : zkClient)
    (oe : option error) (os : option session) (t : trace) :
  conn_ready zkc ->
  connect dial zkc = Returned (oe, zkc', os) t ->
  (forall p,
     no_panic (list_ zkc' p) /\ no_panic (data zkc' p)
     /\ no_panic (watchChildren zkc' p))
  /\
  (forall s es s' t',
     os = Some s -> session_events s es = Returned s' t' ->
     forall p,
       no_panic (list_ (s_client s') p) /\ no_panic (data (s_client s') p)
       /\ no_panic (watchChildren (s_client s') p)).
Proof.
  intros Hready Hconnect.
  assert (H : conn_ready zkc'
              /\ forall s, os = Some s -> conn (s_client s) <> None).
  { revert Hconnect. unfold connect. destruct (connected zkc) eqn:Hc.
    - intros [= _ <- <-]. split; [exact Hready|discriminate].
    - simpl. destruct (dial (hosts zkc) (connTimeout zkc)) as [[c es]|err]; simpl.
      + destruct (await_connected _ es) as [[s1 t1] w] eqn:Ha.
        apply await_connected_same_settings in Ha as (Hconn & _). simpl in Hconn.
        assert (Hsome : conn (s_client s1) <> None) by (rewrite Hconn; discriminate).
        destruct w; simpl; try discriminate.
        * destruct (connected (s_client s1)); simpl; intros [= _ <- <-];
            (split; [intros _; exact Hsome|now intros s [= <-]]).
        * intros [= _ <- <-]. split; [intros _; exact Hsome|now intros s [= <-]].
        * intros [= _ <- <-]. split; [intros _; exact Hsome|discriminate].
      + intros [= _ <- <-]. split; [exact Hready|discriminate]. }
  destruct H as [Hready' Hsess]. split.
  - intros p. now apply conn_ready_no_panic.
  - intros s es s' t' Hos Hev p. apply conn_ready_no_panic. intros _.
    apply session_events_conn in Hev. rewrite Hev. now apply Hsess.
Qed.

Lemma connect_keeps_conn_ready_witness :
  (forall p,
     no_panic (list_ connectedClient p) /\ no_panic (data connectedClient p)
     /\ no_panic (watchChildren connectedClient p))
  /\
  (forall s es s' t',
     Some {| s_client := connectedClient; s_waitClosed := true |} = Some s ->
     session_events s es = Returned s' t' ->
     forall p,
       no_panic (list_ (s_client s') p) /\ no_panic (data (s_client s') p)
       /\ no_panic (watchChildren (s_client s') p)).
Proof.
  apply (connect_keeps_conn_ready mockDial makeZkClient connectedClient None
           (Some {| s_client := connectedClient; s_waitClosed := true |})
           [ActDial test_zk_hosts (Second * 5)]).
  - intros H. discriminate H.
  - reflexivity.
Defined.

(** ** The watch as a subscription *)

Lemma callbacks_of_app (t t' : trace) :
  callbacks_of (t ++ t') = callbacks_of t ++ callbacks_of t'.
Proof.
  induction t as [|a t IH]; simpl; [reflexivity|].
  destruct a; simpl; now rewrite IH.
Qed.

Lemma rearms_of_app (t t' : trace) :
  rearms_of (t ++ t') = rearms_of t ++ rearms_of t'.
Proof.
  induction t as [|a t IH]; simpl; [reflexivity|].
  destruct a; simpl; now rewrite IH.
Qed.

Lemma reports_of_app (t t' : trace) :
  reports_of (t ++ t') = reports_of t ++ reports_of t'.
Proof.
  induction t as [|a t IH]; simpl; [reflexivity|].
  destruct a; simpl; now rewrite IH.
Qed.

(** What the head of an event handler leaves in the trace. *)
Lemma report_event_error_observed (zkc : zkClient) (e : zk.Event) :
  error_watcher_returns zkc ->
  callbacks_of (run_trace (report_event_error zkc e)) = []
  /\ rearms_of (run_trace (report_event_error zkc e)) = []
  /\ reports_of (run_trace (report_event_error zkc e)) =
       match errorWatcher zkc with
       | Some _ => event_errors [e]
       | None => []
       end.
Proof.
  intros Hret. unfold report_event_error, notify_error, call, event_errors. simpl.
  destruct (zk.Err_ e) as [err|]; simpl.
  - destruct (errorWatcher zkc) as [ew|] eqn:Hew; simpl; [|now repeat split].
    rewrite (Hret ew err Hew). simpl. now repeat split.
  - destruct (errorWatcher zkc); now repeat split.
Qed.

(** One firing on a connection that grants the next watch, with callbacks
    that return. *)
Lemma watch_fire_granted (zkc : zkClient) (c : zkConnector) (w : watch)
    (cs : list string) (e : zk.Event) :
  connected zkc = true -> conn zkc = Some c ->
  ChildrenW c (watchPath_of zkc (w_path w)) = Reply cs ->
  children_watcher_returns zkc -> error_watcher_returns zkc ->
  watch_fire zkc w e =
    Returned
      (Some {| w_path := w_path w; w_watchPath := watchPath_of zkc (w_path w) |})
      (run_trace (report_event_error zkc e)
       ++ (if is_children_changed e
           then match childrenWatcher zkc with
                | Some _ => [ActChildrenChanged (zk.Path e)]
                | None => []
                end
           else [])
       ++ [ActChildrenW (watchPath_of zkc (w_path w))]).
Proof.
  intros Hc Hconn Hcs Hcret Heret. unfold watch_fire.
  rewrite (report_event_error_returns zkc e Heret).
  rewrite (watchChildren_connected zkc c (w_path w) Hc Hconn), Hcs.
  unfold is_children_changed.
  destruct (zk.Type_ e); simpl; try reflexivity.
  unfold notify_children, call.
  destruct (childrenWatcher zkc) as [cw|] eqn:Hcw; simpl; [|reflexivity].
  rewrite (Hcret cw (zk.Path e) Hcw). reflexivity.
Qed.

(** X12. The watch is a standing subscription.  On a connected client
    whose callbacks return and whose connection grants every watch, the
    events that fire the watch one after the other are all handled: the
    children watcher, if registered, is called once for each
    children-changed event, in order, with that event's path, and for no
    other event; the watch is requested again once per event, always on the
    same path; and the error watcher, if registered, gets the errors the
    events carry, in order. *)
Theorem watch_chain_callbacks (zkc : zkClient) (c : zkConnector) (path : string)
    (cs : list string) (es : list zk.Event) :
  connected zkc = true -> conn zkc = Some c ->
  ChildrenW c (watchPath_of zkc path) = Reply cs ->
  children_watcher_returns zkc -> error_watcher_returns zkc ->
  exists t,
    watch_fires zkc {| w_path := path; w_watchPath := watchPath_of zkc path |} es =
      Returned (Some {| w_path := path; w_watchPath := watchPath_of zkc path |}) t
    /\ callbacks_of t =
         match childrenWatcher zkc with
         | Some _ => map zk.Path (filter is_children_changed es)
         | None => []
         end
    /\ rearms_of t = repeat (watchPath_of zkc path) (List.length es)
    /\ reports_of t =
         match errorWatcher zkc with
         | Some _ => event_errors es
         | None => []
         end.
Proof.
  intros Hc Hconn Hcs Hcret Heret.
  induction es as [|e es IH].
  - exists []. simpl. split; [reflexivity|].
    split; [now destruct (childrenWatcher zkc)|].
    split; [reflexivity|now destruct (errorWatcher zkc)].
  - destruct IH as (t & Hfires & Hcb & Hre & Hrep).
    pose proof (watch_fire_granted zkc c
                  {| w_path := path; w_watchPath := watchPath_of zkc path |}
                  cs e Hc Hconn Hcs Hcret Heret) as Hfire.
    cbn [w_path] in Hfire.
    destruct (report_event_error_observed zkc e Heret) as (Hcb0 & Hre0 & Hrep0).
    cbn [watch_fires]. rewrite Hfire. cbn [bind].
    rewrite Hfires. eexists. split; [reflexivity|].
    rewrite !callbacks_of_app, !rearms_of_app, !reports_of_app.
    rewrite Hcb0, Hre0, Hrep0, Hcb, Hre, Hrep. cbn [app].
    unfold event_errors. cbn [flat_map filter List.length repeat].
    unfold is_children_changed.
    destruct (zk.Type_ e), (childrenWatcher zkc), (errorWatcher zkc);
      simpl; rewrite ?app_nil_r; repeat split; reflexivity.
Qed.

Lemma watch_chain_callbacks_witness :
  exists t,
    watch_fires observedClient testWatch
      [childrenChangedEvent; nodeDeletedEvent; watchErrorEvent] =
      Returned (Some testWatch) t
    /\ callbacks_of t = ["/test"; "/test"]
    /\ rearms_of t = ["/test"; "/test"; "/test"]
    /\ reports_of t = ["Event Error"].
Proof.
  apply (watch_chain_callbacks observedClient (makeMockConnector test_zk_path [])
           "." [test_zk_path]
           [childrenChangedEvent; nodeDeletedEvent; watchErrorEvent]);
    try reflexivity.
  - intros cw p [= <-]. reflexivity.
  - intros ew err [= <-]. reflexivity.
Defined.

(** X13. When the connection refuses the watch, [watchChildren] returns
    the connection's error and spawns nothing.  When it refuses the watch
    the activity asks for after a firing, that error goes to the error
    watcher (last in the trace, if one is registered) and the subscription
    is over: the activity arms no successor, and the events that follow are
    seen by no one. *)
Theorem rearm_failure_ends_watch (zkc : zkClient) (c : zkConnector) (w : watch)
    (err : error) :
  connected zkc = true -> conn zkc = Some c ->
  ChildrenW c (watchPath_of zkc (w_path w)) = Failure err ->
  children_watcher_returns zkc -> error_watcher_returns zkc ->
  watchChildren zkc (w_path w) =
    Returned (Failure err) [ActChildrenW (watchPath_of zkc (w_path w))]
  /\ forall e, exists t,
       watch_fire zkc w e = Returned None t
       /\ (forall es, watch_fires zkc w (e :: es) = Returned None (t ++ []))
       /\ rearms_of t = [watchPath_of zkc (w_path w)]
       /\ (forall ew, errorWatcher zkc = Some ew ->
             exists t0, t = t0 ++ [ActErrorOccured err]).
Proof.
  intros Hc Hconn Hfail Hcret Heret.
  pose proof (watchChildren_connected zkc c (w_path w) Hc Hconn) as Hwatch.
  rewrite Hfail in Hwatch. split; [exact Hwatch|].
  intros e.
  assert (Hmid : exists tm,
    match zk.Type_ e with
    | zk.EventNodeChildrenChanged => notify_children zkc (zk.Path e)
    | _ => ret tt
    end = Returned tt tm /\ rearms_of tm = []).
  { destruct (zk.Type_ e); try (now exists []).
    unfold notify_children, call.
    destruct (childrenWatcher zkc) as [cw|] eqn:Hcw; [|now exists []].
    rewrite (Hcret cw (zk.Path e) Hcw). now eexists. }
  destruct Hmid as (tm & Hmid & Hre_m).
  destruct (report_event_error_observed zkc e Heret) as (_ & Hre0 & _).
  assert (Hnote : exists tn,
    notify_error zkc err = Returned tt tn /\ rearms_of tn = []
    /\ forall ew, errorWatcher zkc = Some ew -> tn = [ActErrorOccured err]).
  { unfold notify_error, call.
    destruct (errorWatcher zkc) as [ew|] eqn:Hew.
    - rewrite (Heret ew err Hew). eexists. repeat split.
    - exists []. repeat split. discriminate. }
  destruct Hnote as (tn & Hnote & Hre_n & Hlast).
  assert (Hfire : watch_fire zkc w e =
    Returned None
      (run_trace (report_event_error zkc e)
       ++ tm ++ [ActChildrenW (watchPath_of zkc (w_path w))] ++ tn ++ [])).
  { unfold watch_fire.
    rewrite (report_event_error_returns zkc e Heret), Hmid, Hwatch.
    cbn [bind]. rewrite Hnote. reflexivity. }
  eexists. split; [exact Hfire|]. split; [|split].
  - intros es. cbn [watch_fires]. now rewrite Hfire.
  - rewrite !rearms_of_app, Hre0, Hre_m, Hre_n. reflexivity.
  - intros ew Hew. rewrite (Hlast ew Hew), app_nil_r.
    exists (run_trace (report_event_error zkc e)
            ++ tm ++ [ActChildrenW (watchPath_of zkc (w_path w))]).
    now rewrite <- !app_assoc.
Qed.

Lemma rearm_failure_ends_watch_witness :
  watchChildren refusedClient "." =
    Returned (Failure "zk: node does not exist") [ActChildrenW "/test"]
  /\ forall e, exists t,
       watch_fire refusedClient testWatch e = Returned None t
       /\ (forall es, watch_fires refusedClient testWatch (e :: es) = Returned None (t ++ []))
       /\ rearms_of t = ["/test"]
       /\ (forall ew, errorWatcher refusedClient = Some ew ->
             exists t0, t = t0 ++ [ActErrorOccured "zk: node does not exist"]).
Proof.
  apply (rearm_failure_ends_watch refusedClient refusingConnector testWatch
           "zk: node does not exist"); try reflexivity.
  - intros cw p [= <-]. reflexivity.
  - intros ew err [= <-]. reflexivity.
Defined.

Lemma string_prefix_append (s s' : string) : String.prefix s (s ++ s')%string = true.
Proof.
  induction s as [|a s IH]; simpl.
  - now destruct s'.
  - destruct (Ascii.ascii_dec a a) as [_|Hne]; [exact IH|now destruct Hne].
Qed.

(** X14. [watchChildren] only watches at or below the client's root path:
    the one request it makes to the connection is for the root path
    followed by the given path, and for the root path itself when the path
    is empty or ["."]. *)
Theorem watch_path_under_root (zkc : zkClient) (path : string) :
  (forall a, In a (run_trace (watchChildren zkc path)) ->
     exists p, a = ActChildrenW p /\ String.prefix (rootPath zkc) p = true)
  /\ run_trace (watchChildren zkc "") = run_trace (watchChildren zkc ".")
  /\ (connected zkc = true -> conn zkc <> None ->
      run_trace (watchChildren zkc ".") = [ActChildrenW (rootPath zkc)]).
Proof.
  assert (Hpre : String.prefix (rootPath zkc) (watchPath_of zkc path) = true).
  { unfold watchPath_of.
    destruct (negb (path =? "")%string && negb (path =? ".")%string).
    - apply string_prefix_append.
    - rewrite <- (string_prefix_append (rootPath zkc) "").
      f_equal. clear. induction (rootPath zkc) as [|a s IH]; simpl; congruence. }
  split; [|split].
  - unfold watchChildren. destruct (connected zkc); simpl; [|intros a []].
    destruct (conn zkc) as [c|]; simpl; [|intros a []].
    destruct (ChildrenW c (watchPath_of zkc path)) as [cs|err]; simpl;
      intros a [<-|[]]; eexists; split; try reflexivity; exact Hpre.
  - unfold watchChildren. destruct (connected zkc); simpl; [|reflexivity].
    destruct (conn zkc) as [c|]; simpl; [|reflexivity].
    change (watchPath_of zkc "") with (rootPath zkc).
    change (watchPath_of zkc ".") with (rootPath zkc).
    now destruct (ChildrenW c (rootPath zkc)) as [cs|err].
  - intros Hc Hconn. unfold watchChildren. rewrite Hc. simpl.
    destruct (conn zkc) as [c|]; [|now destruct Hconn]. simpl.
    change (watchPath_of zkc ".") with (rootPath zkc).
    now destruct (ChildrenW c (rootPath zkc)) as [cs|err].
Qed.

Lemma watch_path_under_root_witness :
  (exists p, ActChildrenW "/test/child" = ActChildrenW p
             /\ String.prefix "/test" p = true)
  /\ run_trace (watchChildren connectedClient ".") = [ActChildrenW "/test"].
Proof.
  destruct (watch_path_under_root connectedClient "/child") as (Hunder & _ & Hroot).
  split.
  - apply Hunder. left. reflexivity.
  - apply Hroot; [reflexivity|discriminate].
Defined.

(** X15. A new client has the hosts and root path it was given and a
    timeout of five seconds, and is not connected: [newZkClient] reports no
    error, [list], [data] and [watchChildren] on the new client fail, each
    with its own error and without a call to the connection, and [connect]
    starts by dialing the given hosts with the five-second timeout. *)
Theorem newZkClient_unconnected (hs : list string) (root path : string)
    (dial : dialer) :
  snd (newZkClient hs root) = None
  /\ list_ (fst (newZkClient hs root)) path =
       Returned (Failure "Unable to list children, client not connected.") []
  /\ data (fst (newZkClient hs root)) path =
       Returned (Failure "Unable to retrieve node data, client not connected.") []
  /\ watchChildren (fst (newZkClient hs root)) path =
       Returned (Failure "Not connected to server.") []
  /\ exists t,
       run_trace (connect dial (fst (newZkClient hs root))) =
         ActDial hs 5000000000 :: t.
Proof.
  repeat (split; [reflexivity|]).
  exact (connect_unconnected_dials dial (fst (newZkClient hs root)) eq_refl).
Qed.

(** X16. On the watch channel too the error watcher is called first, from
    the watch activity itself.  If it does not return on the error an event
    carries, the children watcher is not called for that event and the watch
    is not requested again. *)
Theorem blocked_error_watcher_ends_watch (zkc : zkClient) (ew : zkErrorWatcher)
    (w : watch) (e : zk.Event) (err : error) :
  errorWatcher zkc = Some ew ->
  zk.Err_ e = Some err ->
  errorOccured_returns ew err = false ->
  watch_fire zkc w e = Blocked [ActErrorOccured err]
  /\ callbacks_of (run_trace (watch_fire zkc w e)) = []
  /\ rearms_of (run_trace (watch_fire zkc w e)) = []
  /\ forall es, watch_fires zkc w (e :: es) = Blocked [ActErrorOccured err].
Proof.
  intros Hew He Hblock.
  assert (H : watch_fire zkc w e = Blocked [ActErrorOccured err]).
  { unfold watch_fire, report_event_error, notify_error, call.
    now rewrite He, Hew, Hblock. }
  rewrite H. repeat split.
  intros es. cbn [watch_fires]. now rewrite H.
Qed.

Lemma blocked_error_watcher_ends_watch_witness :
  watch_fire (with_errorWatcher watchedClient blockingErrorWatcher) testWatch
    watchErrorEvent = Blocked [ActErrorOccured "Event Error"]
  /\ callbacks_of
       (run_trace (watch_fire (with_errorWatcher watchedClient blockingErrorWatcher)
                     testWatch watchErrorEvent)) = []
  /\ rearms_of
       (run_trace (watch_fire (with_errorWatcher watchedClient blockingErrorWatcher)
                     testWatch watchErrorEvent)) = []
  /\ forall es,
       watch_fires (with_errorWatcher watchedClient blockingErrorWatcher) testWatch
         (watchErrorEvent :: es) = Blocked [ActErrorOccured "Event Error"].
Proof.
  apply (blocked_error_watcher_ends_watch
           (with_errorWatcher watchedClient blockingErrorWatcher)
           blockingErrorWatcher testWatch watchErrorEvent "Event Error");
    reflexivity.
Defined.

(** X17. A [StateConnected] event that arrives after [connect] has timed
    out is still taken by the session activity: it sets [connected] on the
    connection installed by the call that timed out and closes
    [waitConnCh], without a panic.  A [connect] called after that returns
    nil at once and keeps that connection, without dialing. *)
Theorem late_connected_event_is_kept (dial dial' : dialer) (zkc : zkClient)
    (c : zkConnector) (es : list zk.Event) (e : zk.Event) :
  connected zkc = false ->
  dial (hosts zkc) (connTimeout zkc) = Reply (c, es) ->
  error_watcher_returns zkc ->
  existsb is_connected_event es = false ->
  zk.State_ e = zk.StateConnected ->
  exists s t s' t',
    connect dial zkc =
      Returned (Some "Unable to confirm connection after 5s.", s_client s, Some s) t
    /\ session_event s e = Returned s' t'
    /\ connected (s_client s') = true
    /\ conn (s_client s') = Some c
    /\ s_waitClosed s' = true
    /\ connect dial' (s_client s') = Returned (None, s_client s', None) [].
Proof.
  intros Hc Hd Hret Hnone He.
  destruct (connect_unconnected_outcome dial zkc c es Hc Hd Hret)
    as (s & t & H & Hsame & Hcl & _ & _).
  rewrite Hnone in H, Hcl.
  assert (Hev : is_connected_event e = true)
    by (unfold is_connected_event; now rewrite He).
  destruct (session_event_returns s e
              (same_settings_error_watcher _ _ Hsame Hret)) as [s' H'];
    [now rewrite Hcl|].
  destruct (session_event_frame s s' e _ H') as ((Hconn & _) & Hconnected & Hclosed).
  assert (Hset : sets_connected e = true)
    by (unfold sets_connected; now rewrite He).
  rewrite Hset, orb_true_r in Hconnected. rewrite Hev, orb_true_r in Hclosed.
  destruct Hsame as (Hconn0 & _).
  exists s, (ActDial (hosts zkc) (connTimeout zkc) :: t), s',
    (run_trace (report_event_error (s_client s) e) ++ []).
  split; [exact H|]. split; [exact H'|]. split; [exact Hconnected|].
  split; [now rewrite Hconn, Hconn0|]. split; [exact Hclosed|].
  unfold connect. now rewrite Hconnected.
Qed.

Lemma late_connected_event_is_kept_witness :
  exists s t s' t',
    connect (dialWith [connectingEvent]) makeZkClient =
      Returned (Some "Unable to confirm connection after 5s.", s_client s, Some s) t
    /\ session_event s connectedEvent = Returned s' t'
    /\ connected (s_client s') = true
    /\ conn (s_client s') = Some (makeMockConnector test_zk_path [])
    /\ s_waitClosed s' = true
    /\ connect mockDial (s_client s') = Returned (None, s_client s', None) [].
Proof.
  apply (late_connected_event_is_kept (dialWith [connectingEvent]) mockDial
           makeZkClient (makeMockConnector test_zk_path []) [connectingEvent]
           connectedEvent); try reflexivity.
  intros ew err H. discriminate H.
Defined.
